(** * Biquad filters: the recurrence engine and the FilterObject wrapper

    A shallow embedding of [DigitalBiquadFilter.h] (the engine with its
    scalar and AVX/SSE/NEON block paths), of [FilterObject.h] (the shared
    parameter-holding wrapper with bypass) and of the eight derived filter
    classes, followed by the properties of the specification.

    The C++ classes are templates over [std::floating_point T].  The
    embedding is generic over an interface [Floating T] that lists the
    arithmetic the headers use, with two instances: IEEE binary64
    ([double], through the primitive floats, executable) and the real
    numbers (the mathematical reading of the formulas).  The functions of
    [<cmath>] are a second interface [Libm T], with the real functions and
    with a binary64 computation of the C library's for [double]. *)

From Stdlib Require Import ZArith List Bool Lia.
From Stdlib Require Import Floats Uint63.
From Stdlib Require Import Reals Lra Psatz.
Import ListNotations.

Set Implicit Arguments.

(** ** The scalar interface *)

Declare Scope flt_scope.
Delimit Scope flt_scope with flt.

(** The operations of [T] that the headers use.  [of_int] is the implicit
    conversion of an [int] or of an integral literal ([0.0], [1.0], [2.0],
    [-2.0], [10.0], [40.0]); [feqb], [fleb] and [fltb] are [==], [<=]
    and [<]. *)
Class Floating (T : Type) : Type := {
  of_int : Z -> T;
  fadd : T -> T -> T;
  fsub : T -> T -> T;
  fmul : T -> T -> T;
  fdiv : T -> T -> T;
  fneg : T -> T;
  feqb : T -> T -> bool;
  fleb : T -> T -> bool;
  fltb : T -> T -> bool
}.

(** The functions of [<cmath>] that the headers call, and [M_PI]. *)
Class Libm (T : Type) : Type := {
  M_PI : T;
  fcos : T -> T;
  fsin : T -> T;
  fsqrt : T -> T;
  fpow : T -> T -> T;
  fsinh : T -> T;
  fasinh : T -> T;
  flog10 : T -> T
}.

Infix "+" := fadd : flt_scope.
Infix "-" := fsub : flt_scope.
Infix "*" := fmul : flt_scope.
Infix "/" := fdiv : flt_scope.
Notation "- x" := (fneg x) : flt_scope.
Infix "==" := feqb (at level 70, no associativity) : flt_scope.
Infix "<=?" := fleb : flt_scope.
Infix "<?" := fltb : flt_scope.
Notation "'#' z" := (of_int z%Z) (at level 9, z at level 9, format "# z") : flt_scope.

(** *** [T = double] *)

Definition double_of_int (z : Z) : float :=
  match z with
  | Z0 => PrimFloat.zero
  | Zpos _ => PrimFloat.of_uint63 (Uint63.of_Z z)
  | Zneg p => PrimFloat.opp (PrimFloat.of_uint63 (Uint63.of_Z (Zpos p)))
  end.

#[export] Instance Floating_double : Floating float := {
  of_int := double_of_int;
  fadd := PrimFloat.add;
  fsub := PrimFloat.sub;
  fmul := PrimFloat.mul;
  fdiv := PrimFloat.div;
  fneg := PrimFloat.opp;
  feqb := PrimFloat.eqb;
  fleb := PrimFloat.leb;
  fltb := PrimFloat.ltb
}.

(** *** The real numbers *)

Definition Reqb (x y : R) : bool := if Req_dec_T x y then true else false.
Definition Rleb (x y : R) : bool := if Rle_dec x y then true else false.
Definition Rltb (x y : R) : bool := if Rlt_dec x y then true else false.

#[export] Instance Floating_R : Floating R := {
  of_int := IZR;
  fadd := Rplus;
  fsub := Rminus;
  fmul := Rmult;
  fdiv := Rdiv;
  fneg := Ropp;
  feqb := Reqb;
  fleb := Rleb;
  fltb := Rltb
}.

Definition Rlog10 (x : R) : R := (ln x / ln 10)%R.

#[export] Instance Libm_R : Libm R := {
  M_PI := PI;
  fcos := cos;
  fsin := sin;
  fsqrt := sqrt;
  fpow := Rpower;
  fsinh := sinh;
  fasinh := arcsinh;
  flog10 := Rlog10
}.

(** ** [<cmath>] on [double]

    The C library is not part of the repository.  For [T = double] its
    functions are computed here in binary64 by the usual argument
    reductions and series; they return the library's value wherever IEEE
    754 and the C standard fix it (exact cases, overflow to infinity,
    underflow to zero, NaN) and agree with it up to the rounding of the
    last places elsewhere.  [std::sqrt] is the correctly rounded primitive.
    The statements below that are evaluated on this instance name the
    library values they depend on. *)
Module DoubleLibm.
Local Open Scope float_scope.

(** [c0 + x (c1 + x (c2 + ...))] *)
Fixpoint horner (cs : list float) (x : float) : float :=
  match cs with
  | [] => 0
  | c :: cs' => c + x * horner cs' x
  end.

(** [1/k!, 1/(k+1)!, ...], [n] of them, from [term = 1/k!]. *)
Fixpoint reciprocal_factorials (n : nat) (k term : float) : list float :=
  match n with
  | O => []
  | S n' => term :: reciprocal_factorials n' (k + 1) (term / (k + 1))
  end.

(** [s^0/k!, s^1/(k+2)!, s^2/(k+4)!, ...], [n] of them, from [term = 1/k!]:
    the coefficients in [x^2] of the series of sin, cos ([s = -1]) and
    sinh ([s = 1]). *)
Fixpoint every_other_factorial (n : nat) (s k term : float) : list float :=
  match n with
  | O => []
  | S n' =>
      term :: every_other_factorial n' s (k + 2) (s * term / ((k + 1) * (k + 2)))
  end.

Definition is_nan (x : float) : bool := negb (x =? x).

(** The integer nearest to [x], for [|x| < 2^51], as a float and as a [Z]. *)
Definition nearest (x : float) : float := (x + 0x1.8p+52) - 0x1.8p+52.

Definition integer_of (x : float) : Z :=
  let (m, e) := Z.frexp (abs x) in
  let n := Z.shiftl (Uint63.to_Z (normfr_mantissa m)) (e - 53) in
  if x <? 0 then (- n)%Z else n.

Definition ln2_hi : float := 0x1.62e42fee00000p-1.
Definition ln2_lo : float := 0x1.a39ef35793c76p-33.
Definition inv_ln2 : float := 0x1.71547652b82fep+0.

Definition exp_coefficients : list float :=
  Eval vm_compute in reciprocal_factorials 15 0 1.

(** [std::exp] *)
Definition exp (x : float) : float :=
  if is_nan x then nan
  else if 0x1.62e42fefa39efp+9 <? x then infinity
  else if x <? -0x1.74910d52d3051p+9 then 0
  else
    let k := nearest (x * inv_ln2) in
    let r := (x - k * ln2_hi) - k * ln2_lo in
    Z.ldexp (horner exp_coefficients r) (integer_of k).

(** [x = m 2^e] with [m] in [[sqrt(1/2), sqrt 2)], for positive finite [x]. *)
Definition split_near_one (x : float) : float * Z :=
  let (m, e) := Z.frexp x in
  if m <? 0x1.6a09e667f3bcdp-1 then (2 * m, (e - 1)%Z) else (m, e).

Definition atanh_coefficients : list float :=
  [1; 1 / 3; 1 / 5; 1 / 7; 1 / 9; 1 / 11; 1 / 13; 1 / 15; 1 / 17; 1 / 19;
   1 / 21; 1 / 23; 1 / 25].

(** The logarithm of [m] near one: [2 atanh((m - 1) / (m + 1))]. *)
Definition log_near_one (m : float) : float :=
  let s := (m - 1) / (m + 1) in
  2 * s * horner atanh_coefficients (s * s).

Definition float_of_Z (z : Z) : float :=
  match z with
  | Z0 => 0
  | Zpos _ => of_uint63 (Uint63.of_Z z)
  | Zneg p => - of_uint63 (Uint63.of_Z (Zpos p))
  end.

(** [std::log] *)
Definition log (x : float) : float :=
  if is_nan x then nan
  else if x <? 0 then nan
  else if x =? 0 then neg_infinity
  else if x =? infinity then infinity
  else
    let (m, e) := split_near_one x in
    let n := float_of_Z e in
    n * ln2_hi + (log_near_one m + n * ln2_lo).

Definition log10_2_hi : float := 0x1.34413509f6000p-2.
Definition log10_2_lo : float := 0x1.9fef311f12b36p-42.
Definition inv_ln10 : float := 0x1.bcb7b1526e50ep-2.

(** [std::log10] *)
Definition log10 (x : float) : float :=
  if is_nan x then nan
  else if x <? 0 then nan
  else if x =? 0 then neg_infinity
  else if x =? infinity then infinity
  else
    let (m, e) := split_near_one x in
    let n := float_of_Z e in
    n * log10_2_hi + (n * log10_2_lo + inv_ln10 * log_near_one m).

Definition pio2_hi : float := 0x1.921fb54442d18p+0.
Definition pio2_lo : float := 0x1.1a62633145c07p-54.
Definition two_over_pi : float := 0x1.45f306dc9c883p-1.

Definition sin_coefficients : list float :=
  Eval vm_compute in every_other_factorial 10 (-1) 1 1.
Definition cos_coefficients : list float :=
  Eval vm_compute in every_other_factorial 10 (-1) 0 1.

Definition sin_kernel (r : float) : float := r * horner sin_coefficients (r * r).
Definition cos_kernel (r : float) : float := horner cos_coefficients (r * r).

(** The quadrant of [x] and the remainder [x - k pi/2]. *)
Definition reduce (x : float) : Z * float :=
  let k := nearest (x * two_over_pi) in
  (Z.modulo (integer_of k) 4, (x - k * pio2_hi) - k * pio2_lo).

(** [std::sin] and [std::cos] *)
Definition sin (x : float) : float :=
  if is_nan x || (abs x =? infinity) then nan
  else
    let (q, r) := reduce x in
    match q with
    | 0%Z => sin_kernel r
    | 1%Z => cos_kernel r
    | 2%Z => - sin_kernel r
    | _ => - cos_kernel r
    end.

Definition cos (x : float) : float :=
  if is_nan x || (abs x =? infinity) then nan
  else
    let (q, r) := reduce x in
    match q with
    | 0%Z => cos_kernel r
    | 1%Z => - sin_kernel r
    | 2%Z => - cos_kernel r
    | _ => sin_kernel r
    end.

Definition sinh_coefficients : list float :=
  Eval vm_compute in every_other_factorial 10 1 1 1.

(** [std::sinh]: the series below 1, the exponentials above, and infinity
    from the overflow threshold on. *)
Definition sinh (x : float) : float :=
  if is_nan x then nan
  else
    let a := abs x in
    let v :=
      if a <? 1 then a * horner sinh_coefficients (a * a)
      else if a <? 0x1.62e42fefa39efp+9 then
        let E := exp a in (E - 1 / E) / 2
      else if a <? 0x1.633ce8fb9f87ep+9 then
        let w := exp (a / 2) in (w / 2) * w
      else infinity in
    if x <? 0 then - v else v.

(** [log(1 + u)] for [u >= 0] *)
Definition log1p (u : float) : float :=
  let w := 1 + u in
  if w =? 1 then u else log w + (u - (w - 1)) / w.

(** [std::asinh] *)
Definition asinh (x : float) : float :=
  if is_nan x then nan
  else
    let a := abs x in
    let v :=
      if a <? 0x1.0p-28 then a
      else if 0x1.0p+28 <? a then log a + (ln2_hi + ln2_lo)
      else if 2 <? a then log (2 * a + 1 / (PrimFloat.sqrt (a * a + 1) + a))
      else let t := a * a in log1p (a + t / (1 + PrimFloat.sqrt (1 + t))) in
    if x <? 0 then - v else v.

(** [std::pow] for the positive bases the headers use (the base is the
    literal [10.0]): [exp(y log x)]; other bases are outside its use. *)
Definition pow (x y : float) : float :=
  if y =? 0 then 1
  else if is_nan x || is_nan y then nan
  else if x =? 1 then 1
  else if 0 <? x then exp (y * log x)
  else nan.

End DoubleLibm.

#[export] Instance Libm_double : Libm float := {
  M_PI := 0x1.921fb54442d18p+1%float;
  fcos := DoubleLibm.cos;
  fsin := DoubleLibm.sin;
  fsqrt := PrimFloat.sqrt;
  fpow := DoubleLibm.pow;
  fsinh := DoubleLibm.sinh;
  fasinh := DoubleLibm.asinh;
  flog10 := DoubleLibm.log10
}.

(** ** DigitalBiquadFilter.h *)

(** [struct Coefficients] and [struct State]. *)
Record Coefficients (T : Type) : Type := {
  b0 : T; b1 : T; b2 : T; a0 : T; a1 : T; a2 : T
}.

Record State (T : Type) : Type := {
  x1 : T; x2 : T; y1 : T; y2 : T
}.

(** [class DigitalBiquadFilter]: its three data members.  [m_iter] is a
    [long long] that only counts calls; it is kept unbounded, as signed
    overflow is undefined in C++ and 2^63 calls are out of reach. *)
Record DigitalBiquadFilter (T : Type) : Type := {
  m_coefficients : Coefficients T;
  m_state : State T;
  m_iter : Z
}.

(** The compile-time configuration of the block path: which of the
    [#if defined(...)] branches is compiled, and which [if constexpr]
    branch [T] selects. *)
Inductive ISA : Type := NoSIMD | AVX | SSE4_1 | NEON.
Inductive Precision : Type := Float32 | Float64 | LongDouble.

Record Target : Type := { isa : ISA; precision : Precision }.

Module Biquad.

Section Engine.
Context {T : Type} `{Floating T}.
Open Scope flt_scope.

(** [State<T> m_state = {}] *)
Definition zero_state : State T :=
  {| x1 := #0; x2 := #0; y1 := #0; y2 := #0 |}.

(** [normalize_coefficients]: five divisions by the current [a0], then
    [a0 = 1.0]. *)
Definition normalize_coefficients (c : Coefficients T) : Coefficients T :=
  let c := {| b0 := b0 c / a0 c; b1 := b1 c; b2 := b2 c;
              a0 := a0 c; a1 := a1 c; a2 := a2 c |} in
  let c := {| b0 := b0 c; b1 := b1 c / a0 c; b2 := b2 c;
              a0 := a0 c; a1 := a1 c; a2 := a2 c |} in
  let c := {| b0 := b0 c; b1 := b1 c; b2 := b2 c / a0 c;
              a0 := a0 c; a1 := a1 c; a2 := a2 c |} in
  let c := {| b0 := b0 c; b1 := b1 c; b2 := b2 c;
              a0 := a0 c; a1 := a1 c / a0 c; a2 := a2 c |} in
  let c := {| b0 := b0 c; b1 := b1 c; b2 := b2 c;
              a0 := a0 c; a1 := a1 c; a2 := a2 c / a0 c |} in
  {| b0 := b0 c; b1 := b1 c; b2 := b2 c;
     a0 := #1; a1 := a1 c; a2 := a2 c |}.

(** The private constructor: copy the coefficients, normalise; the state
    and the counter keep their default member initialisers. *)
Definition construct (coefficients : Coefficients T) : DigitalBiquadFilter T :=
  {| m_coefficients := normalize_coefficients coefficients;
     m_state := zero_state;
     m_iter := 0 |}.

(** [static create]: [std::nullopt] is [None]. *)
Definition create (coefficients : Coefficients T)
  : option (DigitalBiquadFilter T) :=
  if a0 coefficients == #0 then None
  else Some (construct coefficients).

(** [process(T &sample)]: the filter after the call and the value left in
    [sample]. *)
Definition process (f : DigitalBiquadFilter T) (sample : T)
  : DigitalBiquadFilter T * T :=
  let c := m_coefficients f in
  let s := m_state f in
  let x0 := sample in
  let output := (b0 c * x0) + (b1 c * x1 s) + (b2 c * x2 s)
                - (a1 c * y1 s) - (a2 c * y2 s) in
  ({| m_coefficients := c;
      m_state := {| x1 := x0; x2 := x1 s; y1 := output; y2 := y1 s |};
      m_iter := m_iter f + 1 |},
   output).

(** [reset] *)
Definition reset (f : DigitalBiquadFilter T) : DigitalBiquadFilter T :=
  {| m_coefficients := m_coefficients f;
     m_state := zero_state;
     m_iter := 0 |}.

(** [set_coefficients]: the filter after the call and the returned flag. *)
Definition set_coefficients (f : DigitalBiquadFilter T)
    (coefficients : Coefficients T) : DigitalBiquadFilter T * bool :=
  if a0 coefficients == #0 then (f, false)
  else
    let f := {| m_coefficients := coefficients;
                m_state := m_state f; m_iter := m_iter f |} in
    let f := {| m_coefficients := normalize_coefficients (m_coefficients f);
                m_state := m_state f; m_iter := m_iter f |} in
    (reset f, true).

(** *** Block processing *)

(** A [T *] is [None] for [nullptr] and otherwise the caller's buffer
    from the pointed element on.  The caller guarantees [count] valid
    elements; [size_t] indices are natural numbers, no buffer being long
    enough for them to wrap. *)

(** [samples[i] = v] *)
Fixpoint store (i : nat) (v : T) (samples : list T) : list T :=
  match samples, i with
  | [], _ => []
  | _ :: tl, O => v :: tl
  | x :: tl, S i' => x :: store i' v tl
  end.

(** [for (size_t i = 0; i < count; ++i) process(samples[i]);] with [n]
    iterations left.  Reading past the buffer is outside the caller's
    guarantee; the model stops there. *)
Fixpoint scalar_loop (n i : nat) (f : DigitalBiquadFilter T)
    (samples : list T) : DigitalBiquadFilter T * list T :=
  match n with
  | O => (f, samples)
  | S n' =>
      match nth_error samples i with
      | None => (f, samples)
      | Some x =>
          let '(f', y) := process f x in
          scalar_loop n' (S i) f' (store i y samples)
      end
  end.

(** [process_block_scalar] *)
Definition process_block_scalar (f : DigitalBiquadFilter T)
    (samples : option (list T)) (count : nat)
  : DigitalBiquadFilter T * option (list T) :=
  match samples with
  | None => (f, samples)
  | Some buf =>
      if (count <=? 0)%nat then (f, samples)
      else let '(f', buf') := scalar_loop count 0 f buf in (f', Some buf')
  end.

(** Vector registers are lists of lanes, lane 0 first. *)
Definition vreg : Type := list T.

Fixpoint lanewise (op : T -> T -> T) (u v : vreg) : vreg :=
  match u, v with
  | a :: u', b :: v' => op a b :: lanewise op u' v'
  | _, _ => []
  end.

(** [_mm256_set1_pd], [_mm_set1_ps], [vdupq_n_f32], ... *)
Definition set1 (W : nat) (x : T) : vreg := repeat x W.
(** [_mm256_loadu_pd(samples + i)], [vld1q_f32(samples + i)], ... *)
Definition loadu (W : nat) (samples : list T) (i : nat) : vreg :=
  firstn W (skipn i samples).
(** [_mm256_storeu_pd(samples + i, v)], [vst1q_f32(samples + i, v)], ... *)
Definition storeu (samples : list T) (i : nat) (v : vreg) : list T :=
  firstn i samples ++ v ++ skipn (i + length v) samples.
(** [_mm256_cvtsd_f64], [_mm_cvtss_f32], [vgetq_lane_f64(v, 0)], ... *)
Definition lane0 (v : vreg) : T := nth 0 v #0.

Definition vadd : vreg -> vreg -> vreg := lanewise fadd.
Definition vsub : vreg -> vreg -> vreg := lanewise fsub.
Definition vmul : vreg -> vreg -> vreg := lanewise fmul.
(** [vmlaq_f32(a, b, c)] is [a + b * c] in each lane. *)
Definition vmla (a b c : vreg) : vreg := vadd a (vmul b c).

(** The vector loop [for (size_t i = 0; i + (W-1) < count; i += W)], the
    same text in the six [if constexpr] branches up to the lane count
    [W] (the NEON branches spell the sums with [vmlaq]); [fuel] bounds
    the number of iterations. *)
Fixpoint simd_loop (W count fuel i : nat) (vb0 vb1 vb2 va1 va2 : vreg)
    (samples : list T) (vx1 vx2 vy1 vy2 : vreg)
  : list T * (vreg * vreg * vreg * vreg) :=
  match fuel with
  | O => (samples, (vx1, vx2, vy1, vy2))
  | S fuel' =>
      if (i + (W - 1) <? count)%nat then
        let vx0 := loadu W samples i in
        let vy0 := vadd (vadd (vmul vb0 vx0) (vmul vb1 vx1)) (vmul vb2 vx2) in
        let vy0 := vsub vy0 (vadd (vmul va1 vy1) (vmul va2 vy2)) in
        let samples := storeu samples i vy0 in
        simd_loop W count fuel' (i + W) vb0 vb1 vb2 va1 va2
                  samples vx0 vx1 vy0 vy1
      else (samples, (vx1, vx2, vy1, vy2))
  end.

(** One [if constexpr] branch of [process_block_avx], [process_block_sse]
    or [process_block_neon], for registers of [W] lanes.  [m_iter] is
    not touched on the vector path. *)
Definition process_block_lanes (W : nat) (f : DigitalBiquadFilter T)
    (buf : list T) (count : nat) : DigitalBiquadFilter T * option (list T) :=
  if (count <? W)%nat then process_block_scalar f (Some buf) count
  else
    let c := m_coefficients f in
    let s := m_state f in
    let '(buf', (vx1, vx2, vy1, vy2)) :=
      simd_loop W count count 0
                (set1 W (b0 c)) (set1 W (b1 c)) (set1 W (b2 c))
                (set1 W (a1 c)) (set1 W (a2 c))
                buf
                (set1 W (x1 s)) (set1 W (x2 s))
                (set1 W (y1 s)) (set1 W (y2 s)) in
    ({| m_coefficients := c;
        m_state := {| x1 := lane0 vx1; x2 := lane0 vx2;
                      y1 := lane0 vy1; y2 := lane0 vy2 |};
        m_iter := m_iter f |},
     Some buf').

(** [process_block_avx]: 8 lanes for [float], 4 for [double], and no
    branch at all for another [T]. *)
Definition process_block_avx (p : Precision) (f : DigitalBiquadFilter T)
    (samples : option (list T)) (count : nat)
  : DigitalBiquadFilter T * option (list T) :=
  match samples with
  | None => (f, samples)
  | Some buf =>
      match p with
      | Float32 => process_block_lanes 8 f buf count
      | Float64 => process_block_lanes 4 f buf count
      | LongDouble => (f, samples)
      end
  end.

(** [process_block_sse]: 4 lanes for [float], 2 for [double]. *)
Definition process_block_sse (p : Precision) (f : DigitalBiquadFilter T)
    (samples : option (list T)) (count : nat)
  : DigitalBiquadFilter T * option (list T) :=
  match samples with
  | None => (f, samples)
  | Some buf =>
      match p with
      | Float32 => process_block_lanes 4 f buf count
      | Float64 => process_block_lanes 2 f buf count
      | LongDouble => (f, samples)
      end
  end.

(** [process_block_neon]: 4 lanes for [float], 2 for [double]. *)
Definition process_block_neon (p : Precision) (f : DigitalBiquadFilter T)
    (samples : option (list T)) (count : nat)
  : DigitalBiquadFilter T * option (list T) :=
  match samples with
  | None => (f, samples)
  | Some buf =>
      match p with
      | Float32 => process_block_lanes 4 f buf count
      | Float64 => process_block_lanes 2 f buf count
      | LongDouble => (f, samples)
      end
  end.

(** [process(T *samples, const size_t count)]: the filter and the buffer
    after the call, and the returned flag. *)
Definition process_block (t : Target) (f : DigitalBiquadFilter T)
    (samples : option (list T)) (count : nat)
  : DigitalBiquadFilter T * option (list T) * bool :=
  match samples with
  | None => (f, samples, false)
  | Some _ =>
      if (count <=? 0)%nat then (f, samples, false)
      else
        (match isa t with
         | AVX => process_block_avx (precision t) f samples count
         | SSE4_1 => process_block_sse (precision t) f samples count
         | NEON => process_block_neon (precision t) f samples count
         | NoSIMD => process_block_scalar f samples count
         end, true)
  end.

(** *** The reference of the specification

    "Applying [process(sample)] count times in sequence": the single
    sample call on each element in order, the filter threaded through. *)
Fixpoint process_each (f : DigitalBiquadFilter T) (xs : list T)
  : DigitalBiquadFilter T * list T :=
  match xs with
  | [] => (f, [])
  | x :: tl =>
      let '(f1, y) := process f x in
      let '(f2, ys) := process_each f1 tl in
      (f2, y :: ys)
  end.

(** The block call of the specification: the first [count] elements are
    replaced by the outputs of [process_each], the rest is untouched. *)
Definition sequential_block (f : DigitalBiquadFilter T) (buf : list T)
    (count : nat) : DigitalBiquadFilter T * option (list T) :=
  let '(f', ys) := process_each f (firstn count buf) in
  (f', Some (ys ++ skipn count buf)).

End Engine.

End Biquad.

(** ** The earlier engine, [inc/DigitalBiquadFilter.h]

    The header without vector paths keeps the coefficients as given and
    divides by [a0] in every [process] call. *)
Module Legacy.

Section Engine.
Context {T : Type} `{Floating T}.
Open Scope flt_scope.

Definition construct (coefficients : Coefficients T) : DigitalBiquadFilter T :=
  {| m_coefficients := coefficients; m_state := Biquad.zero_state; m_iter := 0 |}.

Definition create (coefficients : Coefficients T)
  : option (DigitalBiquadFilter T) :=
  if a0 coefficients == #0 then None
  else Some (construct coefficients).

Definition process (f : DigitalBiquadFilter T) (sample : T)
  : DigitalBiquadFilter T * T :=
  let c := m_coefficients f in
  let s := m_state f in
  let output := ((b0 c / a0 c) * sample) + ((b1 c / a0 c) * x1 s)
                + ((b2 c / a0 c) * x2 s) - ((a1 c / a0 c) * y1 s)
                - ((a2 c / a0 c) * y2 s) in
  ({| m_coefficients := c;
      m_state := {| x1 := sample; x2 := x1 s; y1 := output; y2 := y1 s |};
      m_iter := m_iter f + 1 |},
   output).

Definition set_coefficients (f : DigitalBiquadFilter T)
    (coefficients : Coefficients T) : DigitalBiquadFilter T * bool :=
  if a0 coefficients == #0 then (f, false)
  else
    let f := {| m_coefficients := coefficients;
                m_state := m_state f; m_iter := m_iter f |} in
    (Biquad.reset f, true).

(** [for (size_t i = 0; i < count; ++i) process(samples[i]);] of the
    earlier header, [n] iterations left. *)
Fixpoint block_loop (n i : nat) (f : DigitalBiquadFilter T)
    (samples : list T) : DigitalBiquadFilter T * list T :=
  match n with
  | O => (f, samples)
  | S n' =>
      match nth_error samples i with
      | None => (f, samples)
      | Some x =>
          let '(f', y) := process f x in
          block_loop n' (S i) f' (Biquad.store i y samples)
      end
  end.

(** [process(T *samples, const size_t count)] of the earlier header. *)
Definition process_block (f : DigitalBiquadFilter T)
    (samples : option (list T)) (count : nat)
  : DigitalBiquadFilter T * option (list T) * bool :=
  match samples with
  | None => (f, samples, false)
  | Some buf =>
      if (count <=? 0)%nat then (f, samples, false)
      else let '(f', buf') := block_loop count 0 f buf in (f', Some buf', true)
  end.

End Engine.

End Legacy.

(** ** Sequences of calls on the engine

    The public members of [DigitalBiquadFilter] a caller can invoke on an
    instance, and the instance after a list of such calls. *)
Section EngineCalls.
Context {T : Type} `{Floating T}.

Inductive EngineCall : Type :=
  | DoProcess (sample : T)
  | DoProcessBlock (samples : option (list T)) (count : nat)
  | DoSetCoefficients (coefficients : Coefficients T)
  | DoReset.

Definition engine_call (t : Target) (f : DigitalBiquadFilter T)
    (c : EngineCall) : DigitalBiquadFilter T :=
  match c with
  | DoProcess sample => fst (Biquad.process f sample)
  | DoProcessBlock samples count =>
      fst (fst (Biquad.process_block t f samples count))
  | DoSetCoefficients coefficients =>
      fst (Biquad.set_coefficients f coefficients)
  | DoReset => Biquad.reset f
  end.

Definition engine_calls (t : Target) (f : DigitalBiquadFilter T)
    (cs : list EngineCall) : DigitalBiquadFilter T :=
  fold_left (engine_call t) cs f.

(** The lane count of the vector branch that a target selects, if any. *)
Definition lanes (t : Target) : option nat :=
  match isa t, precision t with
  | NoSIMD, _ => None
  | _, LongDouble => None
  | AVX, Float32 => Some 8%nat
  | AVX, Float64 => Some 4%nat
  | SSE4_1, Float32 => Some 4%nat
  | SSE4_1, Float64 => Some 2%nat
  | NEON, Float32 => Some 4%nat
  | NEON, Float64 => Some 2%nat
  end.

End EngineCalls.

(** ** FilterObject.h *)

(** The data members of [class FilterObject]; [std::optional] is [option]
    and the [int] sample rate an integer (no arithmetic is done on it). *)
Record FilterObject (T : Type) : Type := {
  m_filter : option (DigitalBiquadFilter T);
  m_cutoff : T;
  m_sampleRate : Z;
  m_qFactor : T;
  m_gain : T;
  m_constantSkirtGain : bool;
  m_bypass : bool
}.

Module Filter.

Section Members.
Context {T : Type}.

(** Assignments to one data member. *)
Definition with_filter (f : FilterObject T) (v : option (DigitalBiquadFilter T)) :=
  {| m_filter := v; m_cutoff := m_cutoff f; m_sampleRate := m_sampleRate f;
     m_qFactor := m_qFactor f; m_gain := m_gain f;
     m_constantSkirtGain := m_constantSkirtGain f; m_bypass := m_bypass f |}.
Definition with_cutoff (f : FilterObject T) (v : T) :=
  {| m_filter := m_filter f; m_cutoff := v; m_sampleRate := m_sampleRate f;
     m_qFactor := m_qFactor f; m_gain := m_gain f;
     m_constantSkirtGain := m_constantSkirtGain f; m_bypass := m_bypass f |}.
Definition with_sampleRate (f : FilterObject T) (v : Z) :=
  {| m_filter := m_filter f; m_cutoff := m_cutoff f; m_sampleRate := v;
     m_qFactor := m_qFactor f; m_gain := m_gain f;
     m_constantSkirtGain := m_constantSkirtGain f; m_bypass := m_bypass f |}.
Definition with_qFactor (f : FilterObject T) (v : T) :=
  {| m_filter := m_filter f; m_cutoff := m_cutoff f; m_sampleRate := m_sampleRate f;
     m_qFactor := v; m_gain := m_gain f;
     m_constantSkirtGain := m_constantSkirtGain f; m_bypass := m_bypass f |}.
Definition with_gain (f : FilterObject T) (v : T) :=
  {| m_filter := m_filter f; m_cutoff := m_cutoff f; m_sampleRate := m_sampleRate f;
     m_qFactor := m_qFactor f; m_gain := v;
     m_constantSkirtGain := m_constantSkirtGain f; m_bypass := m_bypass f |}.
Definition with_constantSkirtGain (f : FilterObject T) (v : bool) :=
  {| m_filter := m_filter f; m_cutoff := m_cutoff f; m_sampleRate := m_sampleRate f;
     m_qFactor := m_qFactor f; m_gain := m_gain f;
     m_constantSkirtGain := v; m_bypass := m_bypass f |}.
Definition with_bypass (f : FilterObject T) (v : bool) :=
  {| m_filter := m_filter f; m_cutoff := m_cutoff f; m_sampleRate := m_sampleRate f;
     m_qFactor := m_qFactor f; m_gain := m_gain f;
     m_constantSkirtGain := m_constantSkirtGain f; m_bypass := v |}.
End Members.

Section Base.
Context {T : Type} `{Floating T} `{Libm T}.
Open Scope flt_scope.

(** The pure virtual [calculate_coefficients], overridden by each derived
    class; it reads the data members. *)
Variable calculate_coefficients : FilterObject T -> Coefficients T.

(** The tail shared by the setters: push the new coefficients into the
    core when there is one (the flag of the core's [set_coefficients] is
    dropped) and report whether there was one. *)
Definition push_coefficients (f : FilterObject T)
    (newCoefficients : Coefficients T) : FilterObject T * bool :=
  match m_filter f with
  | Some core =>
      (with_filter f (Some (fst (Biquad.set_coefficients core newCoefficients))),
       true)
  | None => (f, false)
  end.

(** [process(T &sample)]: the object and the sample after the call, and
    the returned flag. *)
Definition process (f : FilterObject T) (sample : T)
  : FilterObject T * T * bool :=
  if m_bypass f then (f, sample, false)
  else
    match m_filter f with
    | Some core =>
        let '(core', sample') := Biquad.process core sample in
        (with_filter f (Some core'), sample', true)
    | None => (f, sample, false)
    end.

(** [process(T *samples, size_t count)]; the flag of the core's block
    call is dropped. *)
Definition process_block (t : Target) (f : FilterObject T)
    (samples : option (list T)) (count : nat)
  : FilterObject T * option (list T) * bool :=
  if m_bypass f then (f, samples, false)
  else
    match m_filter f with
    | Some core =>
        let '(core', samples', _) := Biquad.process_block t core samples count in
        (with_filter f (Some core'), samples', true)
    | None => (f, samples, false)
    end.

Definition set_cutoff (f : FilterObject T) (cutoff : T) : FilterObject T * bool :=
  if cutoff <=? #0 then (f, false)
  else
    let f := with_cutoff f cutoff in
    let newCoefficients := calculate_coefficients f in
    push_coefficients f newCoefficients.

Definition get_cutoff (f : FilterObject T) : T := m_cutoff f.

Definition set_sample_rate (f : FilterObject T) (sampleRate : Z)
  : FilterObject T * bool :=
  if (sampleRate <=? 0)%Z then (f, false)
  else
    let f := with_sampleRate f sampleRate in
    let newCoefficients := calculate_coefficients f in
    push_coefficients f newCoefficients.

Definition get_sample_rate (f : FilterObject T) : Z := m_sampleRate f.

Definition set_q_factor (f : FilterObject T) (qFactor : T) : FilterObject T * bool :=
  if qFactor <=? #0 then (f, false)
  else
    let f := with_qFactor f qFactor in
    let newCoefficients := calculate_coefficients f in
    push_coefficients f newCoefficients.

Definition get_q_factor (f : FilterObject T) : T := m_qFactor f.

(** The quality factor that [set_bandwidth] computes. *)
Definition bandwidth_to_q (bandwidth : T) : T :=
  #1 / (#2 * fsinh (bandwidth * flog10 #2 / #2)).

Definition set_bandwidth (f : FilterObject T) (bandwidth : T)
  : FilterObject T * bool :=
  if bandwidth <=? #0 then (f, false)
  else
    let Q := bandwidth_to_q bandwidth in
    set_q_factor f Q.

Definition get_bandwidth (f : FilterObject T) : T :=
  let bandwidth := #2 * fasinh (#1 / (#2 * m_qFactor f)) / flog10 #2 in
  bandwidth.

Definition set_gain (f : FilterObject T) (gain : T) : FilterObject T * bool :=
  let f := with_gain f gain in
  let newCoefficients := calculate_coefficients f in
  push_coefficients f newCoefficients.

Definition get_gain (f : FilterObject T) : T := m_gain f.

Definition set_constant_skirt_gain (f : FilterObject T) (constantSkirtGain : bool)
  : FilterObject T * bool :=
  let f := with_constantSkirtGain f constantSkirtGain in
  let newCoefficients := calculate_coefficients f in
  push_coefficients f newCoefficients.

Definition get_constant_skirt_gain (f : FilterObject T) : bool :=
  m_constantSkirtGain f.

Definition set_bypass (f : FilterObject T) (bypass : bool) : FilterObject T :=
  with_bypass f bypass.

Definition get_bypass (f : FilterObject T) : bool := m_bypass f.

(** [verify_parameters]; [sampleRate / 2.0] converts the [int]. *)
Definition verify_parameters (cutoff : T) (sampleRate : Z) (qFactor : T) : bool :=
  if (sampleRate <=? 0)%Z || (cutoff <=? #0) || (qFactor <=? #0)
     || (#sampleRate / #2 <? cutoff)
  then false
  else true.

(** A caller's [process] calls, for statements about sequences of them:
    the object after one call and after a list of calls. *)
Inductive Call : Type :=
  | CallSample (sample : T)
  | CallBlock (samples : option (list T)) (count : nat).

Definition call (t : Target) (f : FilterObject T) (c : Call) : FilterObject T :=
  match c with
  | CallSample sample => fst (fst (process f sample))
  | CallBlock samples count => fst (fst (process_block t f samples count))
  end.

Definition calls (t : Target) (f : FilterObject T) (cs : list Call) : FilterObject T :=
  fold_left (call t) cs f.

(** Two objects with the same core and the same design parameters, the
    bypass flag left aside. *)
Definition same_but_bypass (f g : FilterObject T) : Prop :=
  m_filter f = m_filter g /\ m_cutoff f = m_cutoff g /\
  m_sampleRate f = m_sampleRate g /\ m_qFactor f = m_qFactor g /\
  m_gain f = m_gain g /\ m_constantSkirtGain f = m_constantSkirtGain g.

(** The data members right after the base sub-object is initialised. *)
Definition default_object : FilterObject T :=
  {| m_filter := None; m_cutoff := #0; m_sampleRate := 0; m_qFactor := #0;
     m_gain := #0; m_constantSkirtGain := false; m_bypass := false |}.

End Base.

(** ** The derived classes *)

(** One constructor per header: [LowPassFilter.h], [HighPassFilter.h],
    [BandPassFilter.h], [NotchFilter.h], [AllPassFilter.h],
    [PeakingEQFilter.h], [LowShelfFilter.h], [HighShelfFilter.h]. *)
Inductive FilterKind : Type :=
  | LowPass | HighPass | BandPass | Notch | AllPass
  | PeakingEQ | LowShelf | HighShelf.

Section Derived.
Context {T : Type} `{Floating T} `{Libm T}.
Open Scope flt_scope.

(** The three locals every override starts with. *)
Definition w0_of (f : FilterObject T) : T :=
  #2 * M_PI * m_cutoff f / #(m_sampleRate f).
Definition alpha_of (f : FilterObject T) : T :=
  fsin (w0_of f) / (#2 * m_qFactor f).
(** [std::pow(10.0, m_gain / 40.0)] *)
Definition A_of (f : FilterObject T) : T :=
  fpow #10 (m_gain f / #40).

Definition LowPass_coefficients (f : FilterObject T) : Coefficients T :=
  let w0 := w0_of f in
  let cos_w0 := fcos w0 in
  let alpha := alpha_of f in
  let b1 := #1 - cos_w0 in
  let b0 := b1 / #2 in
  let b2 := b0 in
  let a0 := #1 + alpha in
  let a1 := #(-2) * cos_w0 in
  let a2 := #1 - alpha in
  Build_Coefficients b0 b1 b2 a0 a1 a2.

Definition HighPass_coefficients (f : FilterObject T) : Coefficients T :=
  let w0 := w0_of f in
  let cos_w0 := fcos w0 in
  let alpha := alpha_of f in
  let b1 := - (#1 + cos_w0) in
  let b0 := - b1 / #2 in
  let b2 := b0 in
  let a0 := #1 + alpha in
  let a1 := #(-2) * cos_w0 in
  let a2 := #1 - alpha in
  Build_Coefficients b0 b1 b2 a0 a1 a2.

Definition BandPass_coefficients (f : FilterObject T) : Coefficients T :=
  let w0 := w0_of f in
  let cos_w0 := fcos w0 in
  let alpha := alpha_of f in
  let '(b0, b1, b2) :=
    if m_constantSkirtGain f
    then (m_qFactor f * alpha, #0, - m_qFactor f * alpha)
    else (alpha, #0, - alpha) in
  let a0 := #1 + alpha in
  let a1 := #(-2) * cos_w0 in
  let a2 := #1 - alpha in
  Build_Coefficients b0 b1 b2 a0 a1 a2.

Definition Notch_coefficients (f : FilterObject T) : Coefficients T :=
  let w0 := w0_of f in
  let cos_w0 := fcos w0 in
  let alpha := alpha_of f in
  let b0 := #1 in
  let b1 := #(-2) * cos_w0 in
  let b2 := #1 in
  let a0 := #1 + alpha in
  let a1 := #(-2) * cos_w0 in
  let a2 := #1 - alpha in
  Build_Coefficients b0 b1 b2 a0 a1 a2.

Definition AllPass_coefficients (f : FilterObject T) : Coefficients T :=
  let w0 := w0_of f in
  let cos_w0 := fcos w0 in
  let alpha := alpha_of f in
  let b0 := #1 - alpha in
  let b1 := #(-2) * cos_w0 in
  let b2 := #1 + alpha in
  let a0 := #1 + alpha in
  let a1 := #(-2) * cos_w0 in
  let a2 := #1 - alpha in
  Build_Coefficients b0 b1 b2 a0 a1 a2.

Definition PeakingEQ_coefficients (f : FilterObject T) : Coefficients T :=
  let w0 := w0_of f in
  let cos_w0 := fcos w0 in
  let alpha := alpha_of f in
  let A := A_of f in
  let b0 := #1 + alpha * A in
  let b1 := #(-2) * cos_w0 in
  let b2 := #1 - alpha * A in
  let a0 := #1 + alpha / A in
  let a1 := #(-2) * cos_w0 in
  let a2 := #1 - alpha / A in
  Build_Coefficients b0 b1 b2 a0 a1 a2.

Definition LowShelf_coefficients (f : FilterObject T) : Coefficients T :=
  let w0 := w0_of f in
  let cos_w0 := fcos w0 in
  let alpha := alpha_of f in
  let A := A_of f in
  let b0 := A * (A + #1 - (A - #1) * cos_w0 + #2 * fsqrt A * alpha) in
  let b1 := #2 * A * (A - #1 - (A + #1) * cos_w0) in
  let b2 := A * (A + #1 - (A - #1) * cos_w0 - #2 * fsqrt A * alpha) in
  let a0 := A + #1 + (A - #1) * cos_w0 + #2 * fsqrt A * alpha in
  let a1 := #(-2) * (A - #1 + (A + #1) * cos_w0) in
  let a2 := A + #1 + (A - #1) * cos_w0 - #2 * fsqrt A * alpha in
  Build_Coefficients b0 b1 b2 a0 a1 a2.

Definition HighShelf_coefficients (f : FilterObject T) : Coefficients T :=
  let w0 := w0_of f in
  let cos_w0 := fcos w0 in
  let alpha := alpha_of f in
  let A := A_of f in
  let b0 := A * (A + #1 + (A - #1) * cos_w0 + #2 * fsqrt A * alpha) in
  let b1 := #(-2) * A * (A - #1 + (A + #1) * cos_w0) in
  let b2 := A * (A + #1 + (A - #1) * cos_w0 - #2 * fsqrt A * alpha) in
  let a0 := A + #1 - (A - #1) * cos_w0 + #2 * fsqrt A * alpha in
  let a1 := #2 * (A - #1 - (A + #1) * cos_w0) in
  let a2 := A + #1 - (A - #1) * cos_w0 - #2 * fsqrt A * alpha in
  Build_Coefficients b0 b1 b2 a0 a1 a2.

(** Virtual dispatch of [calculate_coefficients]. *)
Definition calculate_coefficients (k : FilterKind) : FilterObject T -> Coefficients T :=
  match k with
  | LowPass => LowPass_coefficients
  | HighPass => HighPass_coefficients
  | BandPass => BandPass_coefficients
  | Notch => Notch_coefficients
  | AllPass => AllPass_coefficients
  | PeakingEQ => PeakingEQ_coefficients
  | LowShelf => LowShelf_coefficients
  | HighShelf => HighShelf_coefficients
  end.

(** Which optional arguments the constructor of a class takes and stores:
    [gain] for the shelving and peaking classes, [constantSkirtGain] for
    the band-pass; the other classes leave the member at its default. *)
Definition takes_gain (k : FilterKind) : bool :=
  match k with PeakingEQ | LowShelf | HighShelf => true | _ => false end.
Definition takes_constantSkirtGain (k : FilterKind) : bool :=
  match k with BandPass => true | _ => false end.

(** The private constructors: store the arguments, compute the
    coefficients, create the core. *)
Definition construct (k : FilterKind) (cutoff : T) (sampleRate : Z)
    (qFactor gain : T) (constantSkirtGain : bool) : FilterObject T :=
  let this := default_object in
  let this := with_cutoff this cutoff in
  let this := with_sampleRate this sampleRate in
  let this := with_qFactor this qFactor in
  let this := if takes_gain k then with_gain this gain else this in
  let this := if takes_constantSkirtGain k
              then with_constantSkirtGain this constantSkirtGain else this in
  let coefficients := calculate_coefficients k this in
  with_filter this (Biquad.create coefficients).

(** The factories [static create]. *)
Definition create (k : FilterKind) (cutoff : T) (sampleRate : Z)
    (qFactor gain : T) (constantSkirtGain : bool) : option (FilterObject T) :=
  if negb (verify_parameters cutoff sampleRate qFactor) then None
  else
    let obj := construct k cutoff sampleRate qFactor gain constantSkirtGain in
    match m_filter obj with
    | None => None
    | Some _ => Some obj
    end.

End Derived.

End Filter.

(** ** Concrete data for the examples *)

Module Examples.
Open Scope float_scope.

(** A first-order FIR smoother [y[n] = x[n] + x[n-1]]. *)
Definition fir_coefficients : Coefficients float :=
  {| b0 := 1; b1 := 1; b2 := 0; a0 := 1; a1 := 0; a2 := 0 |}.

Definition fir : DigitalBiquadFilter float := Biquad.construct fir_coefficients.

Definition ones5 : list float := [1; 1; 1; 1; 1].

Definition avx_double : Target := {| isa := AVX; precision := Float64 |}.

(** A recursive filter with gain, given unnormalised. *)
Definition iir_coefficients : Coefficients float :=
  {| b0 := 2; b1 := 4; b2 := 6; a0 := 2; a1 := 1; a2 := 0.5 |}.

Definition used_state : State float :=
  {| x1 := 3; x2 := -1; y1 := 0.25; y2 := 8 |}.

Definition used : DigitalBiquadFilter float :=
  {| m_coefficients := Biquad.normalize_coefficients fir_coefficients;
     m_state := used_state; m_iter := 7 |}.

(** A bypassed object around the smoother. *)
Definition bypassed : FilterObject float :=
  {| m_filter := Some used; m_cutoff := 1000; m_sampleRate := 44100;
     m_qFactor := 0.5; m_gain := 0; m_constantSkirtGain := false;
     m_bypass := true |}.

(** Over the real numbers: a notch at 1 kHz for 44.1 kHz with Q = 1/2, and
    the same object with its core taken away. *)
Definition notch : FilterObject R :=
  Filter.construct Filter.Notch 1000%R 44100 (1 / 2)%R 0%R false.

Definition coreless : FilterObject R := Filter.with_filter notch None.

End Examples.

(** ** The conversion of the specification

    Following the specification's words for [set_bandwidth]:
    [Q = 1 / (2 sinh((bandwidth ln 2) / 2))] with the natural logarithm. *)
Definition spec_bandwidth_to_q (bandwidth : R) : R :=
  (1 / (2 * sinh (bandwidth * ln 2 / 2)))%R.

(** The design parameters that pass [verify_parameters], as real numbers. *)
Definition verified (f : FilterObject R) : Prop :=
  (0 < m_sampleRate f)%Z /\ (0 < m_cutoff f)%R /\ (0 < m_qFactor f)%R /\
  (m_cutoff f <= IZR (m_sampleRate f) / 2)%R.

(** The earlier engine holding [c] and the normalising engine holding the
    normalised [c], in the same state. *)
Definition normalizes {T : Type} `{Floating T}
    (fl fn : DigitalBiquadFilter T) : Prop :=
  m_coefficients fn = Biquad.normalize_coefficients (m_coefficients fl) /\
  m_state fn = m_state fl /\ m_iter fn = m_iter fl.

(** What a setter of the wrapper leaves in an object that owns [core]: the
    core rebuilt from the coefficients of the updated parameters, or the
    old core when the engine refuses them. *)
Definition pushed {T : Type} `{Floating T}
    (calculate_coefficients : FilterObject T -> Coefficients T)
    (core : DigitalBiquadFilter T) (g : FilterObject T) : FilterObject T :=
  Filter.with_filter g
    (Some (if (a0 (calculate_coefficients g) == #0)%flt then core
           else Biquad.construct (calculate_coefficients g))).

(** On [double]: a notch at 1 kHz for 44.1 kHz with Q = 1/2, as its
    constructor builds it. *)
Module DoubleExamples.

Definition notch : FilterObject float :=
  Filter.construct Filter.Notch 1000%float 44100 0.5%float 0%float false.

End DoubleExamples.

(** Over the real numbers: an object built by hand around an engine with
    the identity coefficients. *)
Module RealExamples.

Definition unit_coefficients : Coefficients R :=
  {| b0 := 1%R; b1 := 0%R; b2 := 0%R; a0 := 1%R; a1 := 0%R; a2 := 0%R |}.

Definition unit_core : DigitalBiquadFilter R := Biquad.construct unit_coefficients.

Definition wrapped : FilterObject R :=
  {| m_filter := Some unit_core; m_cutoff := 1000%R; m_sampleRate := 44100;
     m_qFactor := (1 / 2)%R; m_gain := 0%R; m_constantSkirtGain := false;
     m_bypass := false |}.

End RealExamples.

(** The sample-wise combination [a x + b y] of two signals. *)
Definition mix (a b : R) (xs ys : list R) : list R :=
  map (fun p : R * R => (a * fst p + b * snd p)%R) (combine xs ys).

(** * Properties *)

Unset Implicit Arguments.

(** ** The engine *)

Section EngineFacts.
Context {T : Type} `{Floating T}.
Open Scope flt_scope.

Lemma normalize_coefficients_eq (c : Coefficients T) :
  Biquad.normalize_coefficients c =
  {| b0 := b0 c / a0 c; b1 := b1 c / a0 c; b2 := b2 c / a0 c;
     a0 := #1; a1 := a1 c / a0 c; a2 := a2 c / a0 c |}.
Proof. reflexivity. Qed.

Lemma store_length (i : nat) (v : T) (l : list T) :
  length (Biquad.store i v l) = length l.
Proof.
  revert i; induction l as [|a l IH]; intros [|i]; simpl; auto.
Qed.

Lemma store_app (pre : list T) (x v : T) (post : list T) :
  Biquad.store (length pre) v (pre ++ x :: post) = pre ++ v :: post.
Proof.
  induction pre as [|a pre IH]; simpl; [reflexivity|].
  now rewrite IH.
Qed.

Lemma nth_error_middle (pre : list T) (x : T) (post : list T) :
  nth_error (pre ++ x :: post) (length pre) = Some x.
Proof.
  induction pre as [|a pre IH]; simpl; auto.
Qed.

(** The loop, started at index [length pre] with the inputs [xs] ahead of
    it, leaves the outputs of the sequential reference in their place. *)
Lemma scalar_loop_process_each (xs pre post : list T) (f : DigitalBiquadFilter T) :
  Biquad.scalar_loop (length xs) (length pre) f (pre ++ xs ++ post) =
  (fst (Biquad.process_each f xs),
   pre ++ snd (Biquad.process_each f xs) ++ post).
Proof.
  revert pre f; induction xs as [|x xs IH]; intros pre f.
  - reflexivity.
  - cbn [length Biquad.scalar_loop Biquad.process_each app].
    rewrite nth_error_middle.
    destruct (Biquad.process f x) as [f1 y] eqn:E.
    rewrite store_app.
    replace (pre ++ y :: xs ++ post) with ((pre ++ [y]) ++ xs ++ post)
      by (rewrite <- app_assoc; reflexivity).
    replace (S (length pre)) with (length (pre ++ [y]))
      by (rewrite length_app; simpl; lia).
    rewrite IH.
    destruct (Biquad.process_each f1 xs) as [f2 ys]; simpl.
    now rewrite <- app_assoc.
Qed.

(** The scalar block path is the sequential reference. *)
Lemma process_block_scalar_sequential (f : DigitalBiquadFilter T)
    (buf : list T) (count : nat) :
  (0 < count <= length buf)%nat ->
  Biquad.process_block_scalar f (Some buf) count =
  Biquad.sequential_block f buf count.
Proof.
  intros [Hpos Hlen].
  unfold Biquad.process_block_scalar, Biquad.sequential_block.
  destruct (Nat.leb_spec count 0) as [Hc|_]; [lia|].
  pose proof (scalar_loop_process_each (firstn count buf) [] (skipn count buf) f) as L.
  rewrite length_firstn, Nat.min_l in L by exact Hlen.
  simpl in L. rewrite firstn_skipn in L. rewrite L.
  now destruct (Biquad.process_each f (firstn count buf)).
Qed.

(** Without a vector unit, and on every vector path below one register of
    samples, the block call is the sequential reference. *)
Lemma process_block_NoSIMD_sequential (p : Precision)
    (f : DigitalBiquadFilter T) (buf : list T) (count : nat) :
  (0 < count <= length buf)%nat ->
  Biquad.process_block {| isa := NoSIMD; precision := p |} f (Some buf) count =
  (Biquad.sequential_block f buf count, true).
Proof.
  intros Hc. unfold Biquad.process_block; cbn [isa].
  destruct (Nat.leb_spec count 0); [lia|].
  now rewrite process_block_scalar_sequential.
Qed.

Lemma process_block_lanes_short (W : nat) (f : DigitalBiquadFilter T)
    (buf : list T) (count : nat) :
  (0 < count <= length buf)%nat -> (count < W)%nat ->
  Biquad.process_block_lanes W f buf count = Biquad.sequential_block f buf count.
Proof.
  intros Hc HW. unfold Biquad.process_block_lanes.
  destruct (Nat.ltb_spec count W); [|lia].
  now apply process_block_scalar_sequential.
Qed.

(** The vector loop leaves by its test, not by its bound: one more unit
    of fuel changes nothing once [count <= i + fuel]. *)
Lemma simd_loop_fuel_enough (W count fuel : nat) :
  forall (i : nat) (vb0 vb1 vb2 va1 va2 : Biquad.vreg) (samples : list T)
         (vx1 vx2 vy1 vy2 : Biquad.vreg),
    (0 < W)%nat -> (count <= i + fuel)%nat ->
    Biquad.simd_loop W count (S fuel) i vb0 vb1 vb2 va1 va2 samples vx1 vx2 vy1 vy2 =
    Biquad.simd_loop W count fuel i vb0 vb1 vb2 va1 va2 samples vx1 vx2 vy1 vy2.
Proof.
  induction fuel as [|fuel IH]; intros i vb0 vb1 vb2 va1 va2 samples
    vx1 vx2 vy1 vy2 HW Hc.
  - cbn [Biquad.simd_loop].
    destruct (Nat.ltb_spec (i + (W - 1)) count); [lia|reflexivity].
  - cbn [Biquad.simd_loop] in *.
    destruct (Nat.ltb_spec (i + (W - 1)) count); [|reflexivity].
    apply IH; lia.
Qed.

(** The NEON branches write the two sums of the loop body with [vmlaq]. *)
Lemma neon_spelling (vb0 vb1 vb2 va1 va2 vx0 vx1 vx2 vy1 vy2 : Biquad.vreg (T:=T)) :
  Biquad.vsub
    (Biquad.vmla (Biquad.vmla (Biquad.vmul vb0 vx0) vb1 vx1) vb2 vx2)
    (Biquad.vmla (Biquad.vmul va1 vy1) va2 vy2) =
  Biquad.vsub
    (Biquad.vadd (Biquad.vadd (Biquad.vmul vb0 vx0) (Biquad.vmul vb1 vx1))
                 (Biquad.vmul vb2 vx2))
    (Biquad.vadd (Biquad.vmul va1 vy1) (Biquad.vmul va2 vy2)).
Proof. reflexivity. Qed.

(** The earlier engine and the normalising one compute the same output and
    the same next state, operation for operation. *)
Lemma legacy_process_normalized (c : Coefficients T) (s : State T) (n : Z) (x : T) :
  snd (Legacy.process {| m_coefficients := c; m_state := s; m_iter := n |} x) =
  snd (Biquad.process {| m_coefficients := Biquad.normalize_coefficients c;
                         m_state := s; m_iter := n |} x) /\
  m_state (fst (Legacy.process
                  {| m_coefficients := c; m_state := s; m_iter := n |} x)) =
  m_state (fst (Biquad.process
                  {| m_coefficients := Biquad.normalize_coefficients c;
                     m_state := s; m_iter := n |} x)).
Proof. split; reflexivity. Qed.

End EngineFacts.

(** *** Single-sample recurrence *)

(** C2: one call of [process(sample)] leaves
    [y = b0*x0 + b1*x1 + b2*x2 - a1*y1 - a2*y2] in the sample, moves the
    state to [{x1 = x0, x2 = x1, y1 = y, y2 = y1}] and keeps the
    coefficients; the call is total, it always returns this pair. *)
Theorem process_recurrence :
  forall (T : Type) (F : Floating T) (f : DigitalBiquadFilter T) (x0 : T),
    let c := m_coefficients f in
    let s := m_state f in
    let y := (b0 c * x0 + b1 c * x1 s + b2 c * x2 s
              - a1 c * y1 s - a2 c * y2 s)%flt in
    exists f' : DigitalBiquadFilter T,
      Biquad.process f x0 = (f', y) /\
      m_state f' = {| x1 := x0; x2 := x1 s; y1 := y; y2 := y1 s |} /\
      m_coefficients f' = m_coefficients f.
Proof.
  intros T F f x0 c s y.
  eexists; split; [reflexivity|]; split; reflexivity.
Qed.

Example process_recurrence_double :
  Biquad.process Examples.used 2%float =
  ({| m_coefficients := Biquad.normalize_coefficients Examples.fir_coefficients;
      m_state := {| x1 := 2; x2 := 3; y1 := 5; y2 := 0.25 |}%float;
      m_iter := 8 |}, 5%float).
Proof. vm_compute. reflexivity. Qed.

(** *** Creation *)

(** C3: [create] is empty exactly when [a0 == 0]; otherwise the filter it
    returns stores [b0, b1, b2, a1, a2] divided by the given [a0], stores
    [a0 = 1], and has a zero state and a zero sample counter. *)
Theorem create_normalizes :
  forall (T : Type) (F : Floating T) (c : Coefficients T),
    (Biquad.create c = None <-> (a0 c == #0)%flt = true) /\
    Biquad.create c =
      (if (a0 c == #0)%flt then None
       else Some {| m_coefficients :=
                      {| b0 := (b0 c / a0 c)%flt; b1 := (b1 c / a0 c)%flt;
                         b2 := (b2 c / a0 c)%flt; a0 := (#1)%flt;
                         a1 := (a1 c / a0 c)%flt; a2 := (a2 c / a0 c)%flt |};
                    m_state := {| x1 := (#0)%flt; x2 := (#0)%flt;
                                  y1 := (#0)%flt; y2 := (#0)%flt |};
                    m_iter := 0 |}).
Proof.
  intros T F c. unfold Biquad.create.
  destruct (a0 c == #0)%flt; split; try reflexivity; split;
    intros E; try reflexivity; discriminate E.
Qed.

Example create_double :
  Biquad.create Examples.iir_coefficients =
  Some {| m_coefficients :=
            {| b0 := 1; b1 := 2; b2 := 3; a0 := 1; a1 := 0.5; a2 := 0.25 |}%float;
          m_state := {| x1 := 0; x2 := 0; y1 := 0; y2 := 0 |}%float;
          m_iter := 0 |}.
Proof. vm_compute. reflexivity. Qed.

(** A negative zero compares equal to [0.0] and is refused as well. *)
Example create_negative_zero :
  Biquad.create {| b0 := 1; b1 := 0; b2 := 0; a0 := -0; a1 := 0; a2 := 0 |}%float
  = None.
Proof. vm_compute. reflexivity. Qed.

(** *** Replacing the coefficients *)

(** C6: [set_coefficients(c)] with [c.a0 == 0] returns false and leaves the
    filter as it was; otherwise it returns true and leaves the filter with
    [b0, b1, b2, a1, a2] of [c] divided by [c.a0], with [a0 = 1], with the
    four state values zero and the counter zero, which is exactly the
    filter that [create(c)] builds, so that any sample processed next gives
    the fresh filter's output [(b0 / a0) * x] whatever the old state
    was. *)
Theorem set_coefficients_fresh :
  forall (T : Type) (F : Floating T) (f : DigitalBiquadFilter T)
         (c : Coefficients T),
    if (a0 c == #0)%flt
    then Biquad.set_coefficients f c = (f, false)
    else
      let fresh :=
        {| m_coefficients :=
             {| b0 := (b0 c / a0 c)%flt; b1 := (b1 c / a0 c)%flt;
                b2 := (b2 c / a0 c)%flt; a0 := (#1)%flt;
                a1 := (a1 c / a0 c)%flt; a2 := (a2 c / a0 c)%flt |};
           m_state := {| x1 := (#0)%flt; x2 := (#0)%flt;
                         y1 := (#0)%flt; y2 := (#0)%flt |};
           m_iter := 0 |} in
      Biquad.create c = Some fresh /\
      Biquad.set_coefficients f c = (fresh, true) /\
      forall x : T,
        Biquad.process (fst (Biquad.set_coefficients f c)) x =
        Biquad.process fresh x /\
        snd (Biquad.process (fst (Biquad.set_coefficients f c)) x) =
        ((b0 c / a0 c) * x + (b1 c / a0 c) * #0 + (b2 c / a0 c) * #0
         - (a1 c / a0 c) * #0 - (a2 c / a0 c) * #0)%flt.
Proof.
  intros T F f c.
  unfold Biquad.set_coefficients, Biquad.create.
  destruct (a0 c == #0)%flt; [reflexivity|].
  cbv zeta. repeat split; reflexivity.
Qed.

Example set_coefficients_double :
  Biquad.set_coefficients Examples.used Examples.iir_coefficients =
  ({| m_coefficients :=
        {| b0 := 1; b1 := 2; b2 := 3; a0 := 1; a1 := 0.5; a2 := 0.25 |}%float;
      m_state := {| x1 := 0; x2 := 0; y1 := 0; y2 := 0 |}%float;
      m_iter := 0 |}, true) /\
  Biquad.create Examples.iir_coefficients =
  Some (fst (Biquad.set_coefficients Examples.used Examples.iir_coefficients)) /\
  snd (Biquad.process
         (fst (Biquad.set_coefficients Examples.used Examples.iir_coefficients))
         2%float) = 2%float.
Proof. repeat split; vm_compute; reflexivity. Qed.

(** *** Block processing on a vector path *)

(** C1 at a failing input: on the AVX path for [double], five samples of
    1.0 through [y[n] = x[n] + x[n-1]] come back unchanged, with the state
    of the first sample of the block and an untouched counter, whereas five
    sequential [process(sample)] calls give 1, 2, 2, 2, 2.  Each lane takes
    the sample four places back (or the broadcast initial state) for its
    [x1], and the fifth sample is never visited. *)
Theorem process_block_avx_diverges :
  Biquad.process_block Examples.avx_double Examples.fir (Some Examples.ones5) 5 =
    ({| m_coefficients := Biquad.normalize_coefficients Examples.fir_coefficients;
        m_state := {| x1 := 1; x2 := 0; y1 := 1; y2 := 0 |}%float;
        m_iter := 0 |},
     Some [1; 1; 1; 1; 1]%float, true) /\
  Biquad.sequential_block Examples.fir Examples.ones5 5 =
    ({| m_coefficients := Biquad.normalize_coefficients Examples.fir_coefficients;
        m_state := {| x1 := 1; x2 := 1; y1 := 2; y2 := 2 |}%float;
        m_iter := 5 |},
     Some [1; 2; 2; 2; 2]%float) /\
  snd (fst (Biquad.process_block Examples.avx_double Examples.fir
              (Some Examples.ones5) 5))
    <> snd (Biquad.sequential_block Examples.fir Examples.ones5 5).
Proof.
  split; [vm_compute; reflexivity|].
  split; [vm_compute; reflexivity|].
  intros E.
  apply (f_equal (fun r : option (list float) =>
                    match r with
                    | Some (_ :: y :: _) => PrimFloat.eqb y 2
                    | _ => false
                    end)) in E.
  vm_compute in E. discriminate E.
Qed.

(** The SSE and NEON paths for [double] have two lanes and the same loop:
    of three samples the third is left as it was. *)
Example process_block_sse_neon_double :
  Biquad.process_block {| isa := SSE4_1; precision := Float64 |} Examples.fir
    (Some [1; 1; 1]%float) 3 =
    ({| m_coefficients := Biquad.normalize_coefficients Examples.fir_coefficients;
        m_state := {| x1 := 1; x2 := 0; y1 := 1; y2 := 0 |}%float;
        m_iter := 0 |},
     Some [1; 1; 1]%float, true) /\
  Biquad.process_block {| isa := NEON; precision := Float64 |} Examples.fir
    (Some [1; 1; 1]%float) 3 =
  Biquad.process_block {| isa := SSE4_1; precision := Float64 |} Examples.fir
    (Some [1; 1; 1]%float) 3 /\
  snd (Biquad.sequential_block Examples.fir [1; 1; 1]%float 3) =
    Some [1; 2; 2]%float.
Proof. repeat split; vm_compute; reflexivity. Qed.

(** The same filter on a block of exactly one register: the length being a
    multiple of the lane count does not help. *)
Example process_block_avx_full_register :
  Biquad.process_block Examples.avx_double Examples.fir
    (Some [1; 1; 1; 1]%float) 4 =
    ({| m_coefficients := Biquad.normalize_coefficients Examples.fir_coefficients;
        m_state := {| x1 := 1; x2 := 0; y1 := 1; y2 := 0 |}%float;
        m_iter := 0 |},
     Some [1; 1; 1; 1]%float, true) /\
  snd (Biquad.sequential_block Examples.fir [1; 1; 1; 1]%float 4) =
    Some [1; 2; 2; 2]%float.
Proof. split; vm_compute; reflexivity. Qed.

(** ** The wrapper *)

Section WrapperFacts.
Context {T : Type} `{Floating T}.
Open Scope flt_scope.

Lemma calls_bypassed (t : Target) (f : FilterObject T) (cs : list (Filter.Call (T:=T))) :
  m_bypass f = true -> Filter.calls t f cs = f.
Proof.
  intros Hb. unfold Filter.calls.
  induction cs as [|c cs IH]; [reflexivity|].
  cbn [fold_left].
  replace (Filter.call t f c) with f; [exact IH|].
  destruct c; unfold Filter.call, Filter.process, Filter.process_block;
    rewrite Hb; reflexivity.
Qed.

Lemma same_but_bypass_eq (f g : FilterObject T) :
  Filter.same_but_bypass f g -> m_bypass f = m_bypass g -> f = g.
Proof.
  destruct f, g; unfold Filter.same_but_bypass; simpl.
  intros (-> & -> & -> & -> & -> & ->) ->. reflexivity.
Qed.

End WrapperFacts.

(** C9: while the bypass flag is set, [process] on a sample or on a block
    returns false and leaves the sample, the buffer and the object as they
    were, whatever the number of calls; after [set_bypass(false)] the
    object is the never-bypassed object with the same core and parameters,
    so every later [process] call gives what that object gives. *)
Theorem bypass_is_noop :
  forall (T : Type) (F : Floating T) (t : Target) (f : FilterObject T),
    m_bypass f = true ->
    (forall x : T, Filter.process f x = (f, x, false)) /\
    (forall (samples : option (list T)) (count : nat),
        Filter.process_block t f samples count = (f, samples, false)) /\
    (forall (cs : list Filter.Call) (g : FilterObject T),
        Filter.same_but_bypass f g -> m_bypass g = false ->
        let f' := Filter.set_bypass (Filter.calls t f cs) false in
        f' = g /\
        (forall x : T, Filter.process f' x = Filter.process g x) /\
        (forall (samples : option (list T)) (count : nat),
            Filter.process_block t f' samples count =
            Filter.process_block t g samples count)).
Proof.
  intros T F t f Hb. split; [|split].
  - intros x. unfold Filter.process. now rewrite Hb.
  - intros samples count. unfold Filter.process_block. now rewrite Hb.
  - intros cs g Hsame Hg f'.
    assert (E : f' = g).
    { subst f'. rewrite calls_bypassed by exact Hb.
      apply same_but_bypass_eq.
      - destruct f; exact Hsame.
      - now rewrite Hg. }
    rewrite E. repeat split.
Qed.

Lemma bypass_is_noop_witness :
  m_bypass Examples.bypassed = true /\
  Filter.process Examples.bypassed 2%float = (Examples.bypassed, 2%float, false) /\
  Filter.process_block Examples.avx_double Examples.bypassed
    (Some Examples.ones5) 5 = (Examples.bypassed, Some Examples.ones5, false) /\
  Filter.set_bypass
    (Filter.calls Examples.avx_double Examples.bypassed
       [Filter.CallSample 2%float; Filter.CallBlock (Some Examples.ones5) 5])
    false
  = Filter.with_bypass Examples.bypassed false.
Proof.
  split; [reflexivity|].
  destruct (bypass_is_noop float _ Examples.avx_double Examples.bypassed eq_refl)
    as (Hs & Hb & Hc).
  split; [apply Hs|]. split; [apply Hb|].
  apply (Hc _ (Filter.with_bypass Examples.bypassed false)).
  - repeat split.
  - reflexivity.
Defined.

(** After the flag is cleared the smoother runs from the state it had. *)
Example bypass_cleared_double :
  Filter.process (Filter.set_bypass Examples.bypassed false) 2%float =
  (Filter.with_filter (Filter.set_bypass Examples.bypassed false)
     (Some (fst (Biquad.process Examples.used 2%float))),
   5%float, true).
Proof. vm_compute. reflexivity. Qed.

(** [set_bandwidth] refuses a non-positive bandwidth and otherwise is
    [set_q_factor] on the converted value, in every arithmetic. *)
Lemma set_bandwidth_unfold {T : Type} `{Floating T} `{Libm T}
    (calc : FilterObject T -> Coefficients T) (f : FilterObject T) (bw : T) :
  Filter.set_bandwidth calc f bw =
  if (bw <=? #0)%flt then (f, false)
  else Filter.set_q_factor calc f (Filter.bandwidth_to_q bw).
Proof. reflexivity. Qed.

(** C8: [set_cutoff], [set_sample_rate] and [set_q_factor] called with a
    non-positive argument return false and leave the whole object, its
    design parameters and its core with coefficients and state, as it
    was. *)
Theorem setters_reject_non_positive :
  forall (T : Type) (F : Floating T)
         (calculate_coefficients : FilterObject T -> Coefficients T)
         (f : FilterObject T) (v : T) (n : Z),
    (v <=? #0)%flt = true -> (n <= 0)%Z ->
    Filter.set_cutoff calculate_coefficients f v = (f, false) /\
    Filter.set_sample_rate calculate_coefficients f n = (f, false) /\
    Filter.set_q_factor calculate_coefficients f v = (f, false).
Proof.
  intros T F calc f v n Hv Hn.
  unfold Filter.set_cutoff, Filter.set_sample_rate, Filter.set_q_factor.
  rewrite Hv. apply Z.leb_le in Hn. rewrite Hn. repeat split.
Qed.

Lemma setters_reject_non_positive_witness :
  ((-1)%R <=? #0)%flt = true /\ (0 <= 0)%Z /\
  Filter.set_cutoff (Filter.calculate_coefficients Filter.Notch)
    Examples.notch (-1)%R = (Examples.notch, false) /\
  Filter.set_sample_rate (Filter.calculate_coefficients Filter.Notch)
    Examples.notch 0 = (Examples.notch, false) /\
  Filter.set_q_factor (Filter.calculate_coefficients Filter.Notch)
    Examples.notch (-1)%R = (Examples.notch, false).
Proof.
  assert (Hv : ((-1)%R <=? #0)%flt = true).
  { simpl. unfold Rleb. destruct (Rle_dec (-1) 0); [reflexivity|lra]. }
  split; [exact Hv|]. split; [lia|].
  apply (setters_reject_non_positive R _
           (Filter.calculate_coefficients Filter.Notch) Examples.notch
           (-1)%R 0%Z Hv).
  lia.
Defined.

(** C10: on an object without a core, [set_cutoff], [set_sample_rate] and
    [set_q_factor] with a positive argument, and [set_gain] with any
    argument, return false and still store the argument, which the getter
    then returns; the object differs from the one before the call as soon
    as the argument differs from the stored value. *)
Theorem setters_without_core_store :
  forall (T : Type) (F : Floating T)
         (calculate_coefficients : FilterObject T -> Coefficients T)
         (f : FilterObject T) (v gain : T) (n : Z),
    m_filter f = None -> (v <=? #0)%flt = false -> (0 < n)%Z ->
    (Filter.set_cutoff calculate_coefficients f v = (Filter.with_cutoff f v, false) /\
     Filter.get_cutoff (fst (Filter.set_cutoff calculate_coefficients f v)) = v) /\
    (Filter.set_sample_rate calculate_coefficients f n
       = (Filter.with_sampleRate f n, false) /\
     Filter.get_sample_rate
       (fst (Filter.set_sample_rate calculate_coefficients f n)) = n) /\
    (Filter.set_q_factor calculate_coefficients f v
       = (Filter.with_qFactor f v, false) /\
     Filter.get_q_factor (fst (Filter.set_q_factor calculate_coefficients f v)) = v) /\
    (Filter.set_gain calculate_coefficients f gain = (Filter.with_gain f gain, false) /\
     Filter.get_gain (fst (Filter.set_gain calculate_coefficients f gain)) = gain) /\
    (Filter.get_cutoff f <> v ->
     fst (Filter.set_cutoff calculate_coefficients f v) <> f).
Proof.
  intros T F calc f v gain n Hnone Hv Hn.
  assert (Hn' : (n <=? 0)%Z = false) by (apply Z.leb_gt; exact Hn).
  unfold Filter.set_cutoff, Filter.set_sample_rate, Filter.set_q_factor,
    Filter.set_gain, Filter.push_coefficients.
  rewrite Hv, Hn'. cbn [Filter.with_cutoff Filter.with_sampleRate
    Filter.with_qFactor Filter.with_gain m_filter].
  rewrite Hnone. cbn [fst].
  repeat split.
  intros Hne E. apply Hne. unfold Filter.get_cutoff.
  rewrite <- E at 1. reflexivity.
Qed.

Lemma setters_without_core_store_witness :
  m_filter Examples.coreless = None /\ (2000%R <=? #0)%flt = false /\
  (0 < 48000)%Z /\
  Filter.set_cutoff (Filter.calculate_coefficients Filter.Notch)
    Examples.coreless 2000%R
    = (Filter.with_cutoff Examples.coreless 2000%R, false) /\
  Filter.get_cutoff
    (fst (Filter.set_cutoff (Filter.calculate_coefficients Filter.Notch)
            Examples.coreless 2000%R)) = 2000%R.
Proof.
  assert (Hv : (2000%R <=? #0)%flt = false).
  { simpl. unfold Rleb. destruct (Rle_dec 2000 0); [lra|reflexivity]. }
  split; [reflexivity|]. split; [exact Hv|]. split; [lia|].
  apply (setters_without_core_store R _
           (Filter.calculate_coefficients Filter.Notch) Examples.coreless
           2000%R 6%R 48000%Z eq_refl Hv).
  lia.
Defined.

(** ** The factories *)

Section FactoryFacts.
Context {T : Type} `{Floating T} `{Libm T}.

(** In every arithmetic, a failed [verify_parameters] makes the factory
    return empty; a zero sample rate is the first test. *)
Lemma create_unverified (k : Filter.FilterKind) (cutoff : T) (sampleRate : Z)
    (qFactor gain : T) (skirt : bool) :
  Filter.verify_parameters cutoff sampleRate qFactor = false ->
  Filter.create k cutoff sampleRate qFactor gain skirt = None.
Proof. intros E. unfold Filter.create. now rewrite E. Qed.

Lemma create_zero_sample_rate (k : Filter.FilterKind) (cutoff qFactor gain : T)
    (skirt : bool) :
  Filter.create k cutoff 0 qFactor gain skirt = None.
Proof. apply create_unverified. reflexivity. Qed.

Lemma create_above_nyquist (k : Filter.FilterKind) (cutoff : T) (sampleRate : Z)
    (qFactor gain : T) (skirt : bool) :
  (#sampleRate / #2 <? cutoff)%flt = true ->
  Filter.create k cutoff sampleRate qFactor gain skirt = None.
Proof.
  intros E. apply create_unverified. unfold Filter.verify_parameters.
  rewrite E, !orb_true_r. reflexivity.
Qed.

End FactoryFacts.

(** ** The real-number reading *)

Section RealFacts.
Open Scope R_scope.

Lemma Reqb_false (x y : R) : x <> y -> Reqb x y = false.
Proof. intros E. unfold Reqb. destruct (Req_dec_T x y); [contradiction|reflexivity]. Qed.

Lemma Rleb_true_iff (x y : R) : Rleb x y = true <-> x <= y.
Proof. unfold Rleb. destruct (Rle_dec x y); split; intros; auto; discriminate. Qed.

Lemma Rleb_false_iff (x y : R) : Rleb x y = false <-> y < x.
Proof.
  unfold Rleb. destruct (Rle_dec x y); split; intros; try lra; discriminate.
Qed.

Lemma Rltb_true_iff (x y : R) : Rltb x y = true <-> x < y.
Proof. unfold Rltb. destruct (Rlt_dec x y); split; intros; auto; discriminate. Qed.

Lemma Rltb_false_iff (x y : R) : Rltb x y = false <-> y <= x.
Proof.
  unfold Rltb. destruct (Rlt_dec x y); split; intros; try lra; discriminate.
Qed.

Lemma sinh_pos (x : R) : 0 < x -> 0 < sinh x.
Proof. intros Hx. rewrite <- sinh_0. now apply sinh_lt. Qed.

Lemma ln_2_pos : 0 < ln 2.
Proof. rewrite <- ln_1. apply ln_increasing; lra. Qed.

Lemma ln_10_gt_1 : 1 < ln 10.
Proof.
  rewrite <- (ln_exp 1) at 1.
  apply ln_increasing; [apply exp_pos|].
  pose proof exp_le_3. lra.
Qed.

Lemma Rlog10_2_pos : 0 < Rlog10 2.
Proof.
  unfold Rlog10. pose proof ln_2_pos. pose proof ln_10_gt_1.
  apply Rdiv_lt_0_compat; lra.
Qed.

Lemma Rlog10_2_lt_ln_2 : Rlog10 2 < ln 2.
Proof.
  unfold Rlog10. pose proof ln_2_pos as H2. pose proof ln_10_gt_1 as H10.
  apply (Rmult_lt_reg_r (ln 10)); [lra|].
  unfold Rdiv. rewrite Rmult_assoc, Rinv_l by lra. nra.
Qed.

(** The quality factor computed from a positive bandwidth is positive. *)
Lemma bandwidth_to_q_pos (bw : R) : 0 < bw -> 0 < Filter.bandwidth_to_q bw.
Proof.
  intros Hbw. unfold Filter.bandwidth_to_q; simpl.
  pose proof Rlog10_2_pos as HL.
  assert (0 < sinh (bw * Rlog10 2 / 2)) by (apply sinh_pos; nra).
  apply Rdiv_lt_0_compat; lra.
Qed.

(** [set_q_factor] stores a positive argument whether or not there is a
    core. *)
Lemma set_q_factor_stores (calc : FilterObject R -> Coefficients R)
    (f : FilterObject R) (q : R) :
  0 < q -> m_qFactor (fst (Filter.set_q_factor calc f q)) = q.
Proof.
  intros Hq. unfold Filter.set_q_factor, Filter.push_coefficients.
  replace (q <=? #0)%flt with false
    by (symmetry; apply Rleb_false_iff; exact Hq).
  cbn [Filter.with_qFactor m_filter].
  destruct (m_filter f); reflexivity.
Qed.

Lemma set_bandwidth_stores (calc : FilterObject R -> Coefficients R)
    (f : FilterObject R) (bw : R) :
  0 < bw ->
  m_qFactor (fst (Filter.set_bandwidth calc f bw)) = Filter.bandwidth_to_q bw.
Proof.
  intros Hbw. unfold Filter.set_bandwidth.
  replace (bw <=? #0)%flt with false
    by (symmetry; apply Rleb_false_iff; exact Hbw).
  apply set_q_factor_stores, bandwidth_to_q_pos, Hbw.
Qed.

End RealFacts.

(** Over the real numbers, [set_bandwidth(bw)] with [bw > 0] followed
    by [get_bandwidth()] returns [bw], whatever the quality factor was
    before and whether or not there is a core; the two conversions are
    inverse to each other, in the other direction as well. *)
Theorem bandwidth_round_trip :
  forall (calculate_coefficients : FilterObject R -> Coefficients R)
         (f : FilterObject R) (bw : R),
    (0 < bw)%R ->
    Filter.get_bandwidth (fst (Filter.set_bandwidth calculate_coefficients f bw)) = bw /\
    Filter.bandwidth_to_q
      (Filter.get_bandwidth (fst (Filter.set_bandwidth calculate_coefficients f bw)))
    = m_qFactor (fst (Filter.set_bandwidth calculate_coefficients f bw)).
Proof.
  intros calc f bw Hbw.
  assert (E : Filter.get_bandwidth (fst (Filter.set_bandwidth calc f bw)) = bw).
  { unfold Filter.get_bandwidth.
    rewrite set_bandwidth_stores by exact Hbw.
    unfold Filter.bandwidth_to_q; simpl.
    pose proof Rlog10_2_pos as HL.
    assert (Hs : (0 < sinh (bw * Rlog10 2 / 2))%R) by (apply sinh_pos; nra).
    replace (1 / (2 * (1 / (2 * sinh (bw * Rlog10 2 / 2)))))%R
      with (sinh (bw * Rlog10 2 / 2)) by (field; lra).
    rewrite arcsinh_sinh. field. lra. }
  split; [exact E|].
  rewrite E. symmetry. apply set_bandwidth_stores, Hbw.
Qed.

Lemma bandwidth_round_trip_witness :
  (0 < 2)%R /\
  Filter.get_bandwidth
    (fst (Filter.set_bandwidth (Filter.calculate_coefficients Filter.Notch)
            Examples.notch 2%R)) = 2%R.
Proof.
  split; [lra|].
  apply (bandwidth_round_trip (Filter.calculate_coefficients Filter.Notch)
           Examples.notch 2%R).
  lra.
Defined.

(** C4 at a failing input: for a bandwidth of 2 octaves [set_bandwidth]
    stores [1 / (2 sinh(log10 2))], computed with the decimal logarithm of
    2, which is larger than the [1 / (2 sinh(ln 2)) = 2/3] of the
    specification. *)
Theorem set_bandwidth_decimal_logarithm :
  forall (calculate_coefficients : FilterObject R -> Coefficients R)
         (f : FilterObject R),
    m_qFactor (fst (Filter.set_bandwidth calculate_coefficients f 2%R))
      = (1 / (2 * sinh (ln 2 / ln 10)))%R /\
    spec_bandwidth_to_q 2 = (2 / 3)%R /\
    (spec_bandwidth_to_q 2
       < m_qFactor (fst (Filter.set_bandwidth calculate_coefficients f 2%R)))%R.
Proof.
  intros calc f.
  assert (Hcode : m_qFactor (fst (Filter.set_bandwidth calc f 2%R))
                  = (1 / (2 * sinh (ln 2 / ln 10)))%R).
  { rewrite set_bandwidth_stores by lra.
    unfold Filter.bandwidth_to_q; simpl; unfold Rlog10.
    replace (2 * (ln 2 / ln 10) / 2)%R with (ln 2 / ln 10)%R; [reflexivity|].
    field. pose proof ln_10_gt_1. lra. }
  assert (Hspec : spec_bandwidth_to_q 2 = (2 / 3)%R).
  { unfold spec_bandwidth_to_q.
    replace (2 * ln 2 / 2)%R with (ln 2) by field.
    unfold sinh. rewrite exp_Ropp, exp_ln by lra. field. }
  split; [exact Hcode|]. split; [exact Hspec|].
  rewrite Hcode, Hspec.
  assert (Hlo : (0 < sinh (ln 2 / ln 10))%R).
  { apply sinh_pos. exact Rlog10_2_pos. }
  assert (Hhi : (sinh (ln 2 / ln 10) < 3 / 4)%R).
  { replace (3 / 4)%R with (sinh (ln 2)).
    - apply sinh_lt. exact Rlog10_2_lt_ln_2.
    - unfold sinh. rewrite exp_Ropp, exp_ln by lra. field. }
  apply (Rmult_lt_reg_r (2 * sinh (ln 2 / ln 10))); [lra|].
  replace (1 / (2 * sinh (ln 2 / ln 10)) * (2 * sinh (ln 2 / ln 10)))%R
    with 1%R by (field; lra).
  lra.
Qed.

Section RealFactories.
Open Scope R_scope.

Lemma verify_parameters_true_iff (cutoff : R) (sampleRate : Z) (qFactor : R) :
  Filter.verify_parameters cutoff sampleRate qFactor = true <->
  (0 < sampleRate)%Z /\ 0 < cutoff /\ 0 < qFactor /\ cutoff <= IZR sampleRate / 2.
Proof.
  unfold Filter.verify_parameters; simpl.
  destruct (Z.leb_spec sampleRate 0) as [Hs|Hs]; simpl.
  { split; [discriminate|]. intros (? & _). lia. }
  destruct (Rleb cutoff 0) eqn:Hc; simpl.
  { apply Rleb_true_iff in Hc. split; [discriminate|]. intros (_ & ? & _). lra. }
  destruct (Rleb qFactor 0) eqn:Hq; simpl.
  { apply Rleb_true_iff in Hq. split; [discriminate|]. intros (_ & _ & ? & _). lra. }
  destruct (Rltb (IZR sampleRate / 2) cutoff) eqn:Hn.
  { apply Rltb_true_iff in Hn. split; [discriminate|]. intros (_ & _ & _ & ?). lra. }
  apply Rleb_false_iff in Hc, Hq. apply Rltb_false_iff in Hn.
  split; auto.
Qed.

Lemma w0_range (f : FilterObject R) :
  verified f -> 0 < Filter.w0_of f <= PI.
Proof.
  intros (Hs & Hc & _ & Hn). unfold Filter.w0_of; simpl.
  assert (Hr : 0 < IZR (m_sampleRate f)) by (apply IZR_lt; exact Hs).
  pose proof PI_RGT_0 as Hpi.
  split.
  - apply Rdiv_lt_0_compat; [|exact Hr]. nra.
  - apply (Rmult_le_reg_r (IZR (m_sampleRate f))); [exact Hr|].
    unfold Rdiv. rewrite Rmult_assoc, Rinv_l by lra. nra.
Qed.

Lemma alpha_nonneg (f : FilterObject R) :
  verified f -> 0 <= Filter.alpha_of f.
Proof.
  intros Hv. pose proof (w0_range f Hv) as [Hlo Hhi].
  destruct Hv as (_ & _ & Hq & _).
  change (Filter.alpha_of f) with (sin (Filter.w0_of f) / (2 * m_qFactor f)).
  apply Rmult_le_pos.
  - apply sin_ge_0; lra.
  - left. apply Rinv_0_lt_compat. lra.
Qed.

Lemma A_pos (f : FilterObject R) : 0 < Filter.A_of f.
Proof. unfold Filter.A_of; simpl. unfold Rpower. apply exp_pos. Qed.

(** The shelving denominators: [A + 1 +- (A - 1) c + 2 sqrt(A) alpha]. *)
Lemma shelf_a0_pos (A c s alpha : R) :
  0 < A -> -1 <= c <= 1 -> 0 <= s -> 0 <= alpha ->
  0 < A + 1 + (A - 1) * c + 2 * s * alpha /\
  0 < A + 1 - (A - 1) * c + 2 * s * alpha.
Proof.
  intros HA [Hc1 Hc2] Hs Ha.
  assert (0 <= s * alpha) by (apply Rmult_le_pos; assumption).
  assert (0 <= A * (1 + c)) by (apply Rmult_le_pos; lra).
  assert (0 <= A * (1 - c)) by (apply Rmult_le_pos; lra).
  destruct (Rle_lt_dec c 0); split; nra.
Qed.

(** Verified parameters give a positive [a0] in every derived class. *)
Lemma a0_pos (k : Filter.FilterKind) (f : FilterObject R) :
  verified f -> 0 < a0 (Filter.calculate_coefficients k f).
Proof.
  intros Hv. pose proof (alpha_nonneg f Hv) as Ha.
  pose proof (A_pos f) as HA.
  pose proof (COS_bound (Filter.w0_of f)) as Hc.
  pose proof (sqrt_pos (Filter.A_of f)) as Hs.
  destruct (shelf_a0_pos _ _ _ _ HA Hc Hs Ha) as [Hlow Hhigh].
  assert (Hq : 0 <= Filter.alpha_of f / Filter.A_of f).
  { apply Rmult_le_pos; [exact Ha|]. left. now apply Rinv_0_lt_compat. }
  destruct k; unfold Filter.calculate_coefficients;
    try (unfold Filter.BandPass_coefficients; destruct (m_constantSkirtGain f));
    cbn -[Filter.alpha_of Filter.A_of Filter.w0_of]; lra.
Qed.

Lemma construct_verified (k : Filter.FilterKind) (cutoff : R) (sampleRate : Z)
    (qFactor gain : R) (skirt : bool) :
  Filter.verify_parameters cutoff sampleRate qFactor = true ->
  exists core : DigitalBiquadFilter R,
    m_filter (Filter.construct k cutoff sampleRate qFactor gain skirt) = Some core.
Proof.
  intros Hv. apply verify_parameters_true_iff in Hv.
  unfold Filter.construct.
  set (this := if Filter.takes_constantSkirtGain k then _ else _).
  assert (Hthis : verified this).
  { subst this. unfold verified.
    destruct (Filter.takes_constantSkirtGain k), (Filter.takes_gain k);
      exact Hv. }
  cbn [Filter.with_filter m_filter]. unfold Biquad.create.
  replace (a0 (Filter.calculate_coefficients k this) == #0)%flt with false.
  - eexists; reflexivity.
  - symmetry. apply Reqb_false. pose proof (a0_pos k this Hthis). simpl. lra.
Qed.

Lemma create_verified (k : Filter.FilterKind) (cutoff : R) (sampleRate : Z)
    (qFactor gain : R) (skirt : bool) :
  Filter.verify_parameters cutoff sampleRate qFactor = true ->
  Filter.create k cutoff sampleRate qFactor gain skirt =
  Some (Filter.construct k cutoff sampleRate qFactor gain skirt).
Proof.
  intros Hv. unfold Filter.create. rewrite Hv. cbn [negb].
  destruct (construct_verified k cutoff sampleRate qFactor gain skirt Hv)
    as [core Hcore].
  now rewrite Hcore.
Qed.

End RealFactories.

(** Over the real numbers every factory returns empty exactly when
    [sampleRate <= 0], [cutoff <= 0], [qFactor <= 0] or
    [cutoff > sampleRate / 2]; otherwise it returns the constructed object,
    which owns a core. *)
Theorem create_rejects_exactly :
  forall (k : Filter.FilterKind) (cutoff : R) (sampleRate : Z)
         (qFactor gain : R) (constantSkirtGain : bool),
    (Filter.create k cutoff sampleRate qFactor gain constantSkirtGain = None <->
     (sampleRate <= 0)%Z \/ (cutoff <= 0)%R \/ (qFactor <= 0)%R \/
     (cutoff > IZR sampleRate / 2)%R) /\
    (Filter.create k cutoff sampleRate qFactor gain constantSkirtGain = None \/
     exists core : DigitalBiquadFilter R,
       m_filter (Filter.construct k cutoff sampleRate qFactor gain constantSkirtGain)
         = Some core /\
       Filter.create k cutoff sampleRate qFactor gain constantSkirtGain
         = Some (Filter.construct k cutoff sampleRate qFactor gain constantSkirtGain)).
Proof.
  intros k cutoff sampleRate qFactor gain skirt.
  unfold Filter.create.
  destruct (Filter.verify_parameters cutoff sampleRate qFactor) eqn:Hv;
    cbn [negb].
  - destruct (construct_verified k cutoff sampleRate qFactor gain skirt Hv)
      as [core Hcore].
    rewrite Hcore. apply verify_parameters_true_iff in Hv.
    split.
    + split; [discriminate|]. intros [?|[?|[?|?]]]; [lia|lra|lra|lra].
    + right. exists core. split; reflexivity.
  - split; [|left; reflexivity].
    split; [intros _|reflexivity].
    destruct (Z_le_gt_dec sampleRate 0) as [?|Hs]; [now left|].
    destruct (Rle_lt_dec cutoff 0) as [?|Hc]; [now right; left|].
    destruct (Rle_lt_dec qFactor 0) as [?|Hq]; [now right; right; left|].
    destruct (Rle_lt_dec cutoff (IZR sampleRate / 2)) as [Hn|?];
      [|now right; right; right].
    assert (Filter.verify_parameters cutoff sampleRate qFactor = true) as E
      by (apply verify_parameters_true_iff; repeat split; (lia || lra)).
    rewrite E in Hv. discriminate Hv.
Qed.

(** Exactly at the Nyquist frequency a notch is accepted; a zero sample
    rate and a cutoff above Nyquist are refused by every class. *)
Example create_at_nyquist :
  Filter.create Filter.Notch 22050%R 44100 (1 / 2)%R 0%R false
  = Some (Filter.construct Filter.Notch 22050%R 44100 (1 / 2)%R 0%R false).
Proof.
  apply create_verified. apply verify_parameters_true_iff.
  repeat split; (lia || lra).
Qed.

Example create_above_nyquist_real (k : Filter.FilterKind) :
  Filter.create k 30000%R 44100 (1 / 2)%R 6%R false = None.
Proof.
  apply create_above_nyquist. apply Rltb_true_iff. simpl. lra.
Qed.

(** * Further properties of the engine *)

Section EngineFrames.
Context {T : Type} `{Floating T}.
Open Scope flt_scope.

Lemma process_each_length (xs : list T) (f : DigitalBiquadFilter T) :
  length (snd (Biquad.process_each f xs)) = length xs.
Proof.
  revert f; induction xs as [|x xs IH]; intros f; [reflexivity|].
  cbn [Biquad.process_each].
  destruct (Biquad.process f x) as [f1 y].
  specialize (IH f1). destruct (Biquad.process_each f1 xs) as [f2 ys].
  simpl in *. now rewrite IH.
Qed.

Lemma process_each_coefficients (xs : list T) (f : DigitalBiquadFilter T) :
  m_coefficients (fst (Biquad.process_each f xs)) = m_coefficients f.
Proof.
  revert f; induction xs as [|x xs IH]; intros f; [reflexivity|].
  cbn [Biquad.process_each].
  destruct (Biquad.process f x) as [f1 y] eqn:E.
  specialize (IH f1). destruct (Biquad.process_each f1 xs) as [f2 ys].
  simpl in *. rewrite IH.
  unfold Biquad.process in E. injection E as <- _. reflexivity.
Qed.

Lemma process_each_iter (xs : list T) (f : DigitalBiquadFilter T) :
  m_iter (fst (Biquad.process_each f xs)) = (m_iter f + Z.of_nat (length xs))%Z.
Proof.
  revert f; induction xs as [|x xs IH]; intros f.
  - simpl. lia.
  - cbn [Biquad.process_each].
    destruct (Biquad.process f x) as [f1 y] eqn:E.
    specialize (IH f1). destruct (Biquad.process_each f1 xs) as [f2 ys].
    cbn [fst length] in *. rewrite IH.
    unfold Biquad.process in E. injection E as <- _. cbn [m_iter]. lia.
Qed.

Lemma lanewise_length (op : T -> T -> T) (u v : Biquad.vreg (T:=T)) :
  length (Biquad.lanewise op u v) = Nat.min (length u) (length v).
Proof.
  revert v; induction u as [|a u IH]; intros [|b v]; simpl; auto.
Qed.

Lemma loadu_length (W : nat) (samples : list T) (i : nat) :
  (i + W <= length samples)%nat -> length (Biquad.loadu W samples i) = W.
Proof.
  intros Hb. unfold Biquad.loadu. rewrite length_firstn, length_skipn. lia.
Qed.

Lemma storeu_length (samples : list T) (i : nat) (v : Biquad.vreg (T:=T)) :
  (i + length v <= length samples)%nat ->
  length (Biquad.storeu samples i v) = length samples.
Proof.
  intros Hb. unfold Biquad.storeu.
  rewrite !length_app, length_firstn, length_skipn. lia.
Qed.

Lemma storeu_outside (samples : list T) (i : nat) (v : Biquad.vreg (T:=T)) (j : nat) :
  (i + length v <= length samples)%nat ->
  (j < i \/ i + length v <= j)%nat ->
  nth_error (Biquad.storeu samples i v) j = nth_error samples j.
Proof.
  intros Hb Hj. unfold Biquad.storeu.
  destruct Hj as [Hj|Hj].
  - rewrite nth_error_app1 by (rewrite length_firstn; lia).
    rewrite nth_error_firstn.
    destruct (Nat.ltb_spec j i); [reflexivity|lia].
  - rewrite nth_error_app2 by (rewrite length_firstn; lia).
    rewrite length_firstn, Nat.min_l by lia.
    rewrite nth_error_app2 by lia.
    rewrite nth_error_skipn. f_equal. lia.
Qed.

(** What the vector loop started at index [i] leaves alone: the length of
    the buffer, every sample before [i] and every sample from the end of
    the last full register on. *)
Lemma simd_loop_frame (W count : nat) :
  (0 < W)%nat ->
  forall (fuel i : nat) (vb0 vb1 vb2 va1 va2 : Biquad.vreg (T:=T))
         (samples : list T) (vx1 vx2 vy1 vy2 : Biquad.vreg (T:=T)),
    (count <= length samples)%nat ->
    length vb0 = W -> length vb1 = W -> length vb2 = W ->
    length va1 = W -> length va2 = W ->
    length vx1 = W -> length vx2 = W -> length vy1 = W -> length vy2 = W ->
    let r := Biquad.simd_loop W count fuel i vb0 vb1 vb2 va1 va2
               samples vx1 vx2 vy1 vy2 in
    length (fst r) = length samples /\
    forall j : nat,
      (j < i \/ i + W * ((count - i) / W) <= j)%nat ->
      nth_error (fst r) j = nth_error samples j.
Proof.
  intros HW fuel.
  induction fuel as [|fuel IH];
    intros i vb0 vb1 vb2 va1 va2 samples vx1 vx2 vy1 vy2
           Hc Lb0 Lb1 Lb2 La1 La2 Lx1 Lx2 Ly1 Ly2.
  - simpl. split; reflexivity.
  - cbn [Biquad.simd_loop].
    destruct (Nat.ltb_spec (i + (W - 1)) count) as [Hlt|Hge].
    2:{ simpl. split; reflexivity. }
    set (vx0 := Biquad.loadu W samples i).
    set (vy0 := Biquad.vsub _ _).
    assert (Lx0 : length vx0 = W) by (apply loadu_length; lia).
    assert (Ly0 : length vy0 = W).
    { subst vy0. unfold Biquad.vsub, Biquad.vadd, Biquad.vmul.
      rewrite !lanewise_length. lia. }
    assert (Hs : (i + length vy0 <= length samples)%nat) by lia.
    specialize (IH (i + W)%nat vb0 vb1 vb2 va1 va2
                  (Biquad.storeu samples i vy0) vx0 vx1 vy0 vy1).
    rewrite storeu_length in IH by exact Hs.
    specialize (IH Hc Lb0 Lb1 Lb2 La1 La2 Lx0 Lx1 Ly0 Ly1).
    cbv zeta in IH. destruct IH as [IHlen IHnth].
    split; [exact IHlen|].
    intros j Hj.
    assert (Hdiv : ((count - i) / W = S ((count - (i + W)) / W))%nat).
    { replace (count - i)%nat with ((count - (i + W)) + 1 * W)%nat by lia.
      rewrite Nat.div_add by lia. lia. }
    rewrite IHnth.
    + apply storeu_outside; [exact Hs|]. rewrite Ly0.
      destruct Hj as [Hj|Hj]; [left; exact Hj|right].
      rewrite Hdiv in Hj. nia.
    + destruct Hj as [Hj|Hj]; [left; lia|right].
      rewrite Hdiv in Hj. nia.
Qed.

End EngineFrames.

Section EngineBlocks.
Context {T : Type} `{Floating T}.
Open Scope flt_scope.

Lemma scalar_loop_coefficients (n : nat) :
  forall (i : nat) (f : DigitalBiquadFilter T) (samples : list T),
    m_coefficients (fst (Biquad.scalar_loop n i f samples)) = m_coefficients f.
Proof.
  induction n as [|n IH]; intros i f samples; [reflexivity|].
  cbn [Biquad.scalar_loop].
  destruct (nth_error samples i) as [x|]; [|reflexivity].
  destruct (Biquad.process f x) as [f1 y] eqn:E.
  rewrite IH. unfold Biquad.process in E. injection E as <- _. reflexivity.
Qed.

Lemma process_block_scalar_coefficients (f : DigitalBiquadFilter T)
    (samples : option (list T)) (count : nat) :
  m_coefficients (fst (Biquad.process_block_scalar f samples count))
  = m_coefficients f.
Proof.
  unfold Biquad.process_block_scalar.
  destruct samples as [buf|]; [|reflexivity].
  destruct (count <=? 0)%nat; [reflexivity|].
  pose proof (scalar_loop_coefficients count 0 f buf) as E.
  destruct (Biquad.scalar_loop count 0 f buf). exact E.
Qed.

Lemma process_block_lanes_coefficients (W : nat) (f : DigitalBiquadFilter T)
    (buf : list T) (count : nat) :
  m_coefficients (fst (Biquad.process_block_lanes W f buf count))
  = m_coefficients f.
Proof.
  unfold Biquad.process_block_lanes.
  destruct (count <? W)%nat; [apply process_block_scalar_coefficients|].
  destruct (Biquad.simd_loop _ _ _ _ _ _ _ _ _ _ _ _ _ _) as [buf' [[[? ?] ?] ?]].
  reflexivity.
Qed.

(** No path of the block call touches the coefficients. *)
Lemma process_block_coefficients (t : Target) (f : DigitalBiquadFilter T)
    (samples : option (list T)) (count : nat) :
  m_coefficients (fst (fst (Biquad.process_block t f samples count)))
  = m_coefficients f.
Proof.
  unfold Biquad.process_block.
  destruct samples as [buf|]; [|reflexivity].
  destruct (count <=? 0)%nat; [reflexivity|].
  cbn [fst].
  destruct (isa t); [apply process_block_scalar_coefficients| | |];
    unfold Biquad.process_block_avx, Biquad.process_block_sse,
      Biquad.process_block_neon;
    destruct (precision t);
    solve [apply process_block_lanes_coefficients | reflexivity].
Qed.

(** A vector target sends a non-empty block to its branch. *)
Lemma process_block_on_lanes (t : Target) (W : nat) (f : DigitalBiquadFilter T)
    (buf : list T) (count : nat) :
  lanes t = Some W -> (0 < count)%nat ->
  Biquad.process_block t f (Some buf) count =
  (Biquad.process_block_lanes W f buf count, true).
Proof.
  intros HW Hc. unfold Biquad.process_block.
  destruct (Nat.leb_spec count 0); [lia|].
  unfold lanes in HW.
  destruct (isa t), (precision t); try discriminate HW;
    injection HW as <-; reflexivity.
Qed.

Lemma lanes_pos (t : Target) (W : nat) : lanes t = Some W -> (0 < W)%nat.
Proof.
  unfold lanes. destruct (isa t), (precision t); intros E;
    try discriminate E; injection E as <-; lia.
Qed.

End EngineBlocks.

(** X1: the scalar block path rewrites exactly the first [count] samples:
    the buffer keeps its length, the samples from [count] on are as they
    were, the counter advances by [count] and the coefficients stay. *)
Theorem scalar_block_extent :
  forall (T : Type) (F : Floating T) (f : DigitalBiquadFilter T)
         (buf : list T) (count : nat),
    (0 < count <= length buf)%nat ->
    exists (f' : DigitalBiquadFilter T) (buf' : list T),
      Biquad.process_block_scalar f (Some buf) count = (f', Some buf') /\
      length buf' = length buf /\
      skipn count buf' = skipn count buf /\
      m_iter f' = (m_iter f + Z.of_nat count)%Z /\
      m_coefficients f' = m_coefficients f.
Proof.
  intros T F f buf count Hc.
  rewrite process_block_scalar_sequential by exact Hc.
  unfold Biquad.sequential_block.
  pose proof (process_each_length (firstn count buf) f) as Hlen.
  pose proof (process_each_iter (firstn count buf) f) as Hit.
  pose proof (process_each_coefficients (firstn count buf) f) as Hco.
  destruct (Biquad.process_each f (firstn count buf)) as [f' ys].
  cbn [fst snd] in *.
  rewrite length_firstn, Nat.min_l in Hlen, Hit by lia.
  exists f', (ys ++ skipn count buf).
  split; [reflexivity|]. split.
  { rewrite length_app, length_skipn. lia. }
  split.
  { rewrite skipn_app, Hlen, Nat.sub_diag, skipn_all2 by lia. reflexivity. }
  split; assumption.
Qed.

Lemma scalar_block_extent_witness :
  (0 < 3 <= length Examples.ones5)%nat /\
  exists (f' : DigitalBiquadFilter float) (buf' : list float),
    Biquad.process_block_scalar Examples.fir (Some Examples.ones5) 3
      = (f', Some buf') /\
    length buf' = length Examples.ones5 /\
    skipn 3 buf' = skipn 3 Examples.ones5 /\
    m_iter f' = (m_iter Examples.fir + Z.of_nat 3)%Z /\
    m_coefficients f' = m_coefficients Examples.fir.
Proof.
  split; [simpl; lia|].
  apply (scalar_block_extent float _ Examples.fir Examples.ones5 3).
  simpl; lia.
Defined.

(** X2: on a vector target with [W] lanes, a block of at least [W] samples
    keeps the buffer length and leaves every sample from index
    [W * (count / W)] on as it was (the samples after the last full
    register are not processed); the counter is not advanced and the
    coefficients stay. *)
Theorem vector_block_extent :
  forall (T : Type) (F : Floating T) (t : Target) (W : nat)
         (f : DigitalBiquadFilter T) (buf : list T) (count : nat),
    lanes t = Some W -> (W <= count <= length buf)%nat ->
    exists (f' : DigitalBiquadFilter T) (buf' : list T),
      Biquad.process_block t f (Some buf) count = (f', Some buf', true) /\
      length buf' = length buf /\
      skipn (W * (count / W)) buf' = skipn (W * (count / W)) buf /\
      m_iter f' = m_iter f /\
      m_coefficients f' = m_coefficients f.
Proof.
  intros T F t W f buf count HW [HWc Hc].
  pose proof (lanes_pos t W HW) as Hpos.
  rewrite (process_block_on_lanes t W) by (assumption || lia).
  unfold Biquad.process_block_lanes.
  destruct (Nat.ltb_spec count W); [lia|].
  pose proof (simd_loop_frame W count Hpos count 0
    (Biquad.set1 W (b0 (m_coefficients f))) (Biquad.set1 W (b1 (m_coefficients f)))
    (Biquad.set1 W (b2 (m_coefficients f))) (Biquad.set1 W (a1 (m_coefficients f)))
    (Biquad.set1 W (a2 (m_coefficients f))) buf
    (Biquad.set1 W (x1 (m_state f))) (Biquad.set1 W (x2 (m_state f)))
    (Biquad.set1 W (y1 (m_state f))) (Biquad.set1 W (y2 (m_state f))) Hc) as L.
  unfold Biquad.set1 in L. rewrite !repeat_length in L.
  specialize (L eq_refl eq_refl eq_refl eq_refl eq_refl
                eq_refl eq_refl eq_refl eq_refl).
  cbv zeta in L.
  unfold Biquad.set1.
  destruct (Biquad.simd_loop _ _ _ _ _ _ _ _ _ _ _ _ _ _)
    as [buf' [[[vx1 vx2] vy1] vy2]].
  cbn [fst] in L. destruct L as [Llen Lnth].
  eexists _, buf'. split; [reflexivity|].
  split; [exact Llen|]. split; [|split; reflexivity].
  apply nth_error_ext. intros j.
  rewrite !nth_error_skipn. apply Lnth. right.
  rewrite Nat.sub_0_r. lia.
Qed.

Lemma vector_block_extent_witness :
  lanes Examples.avx_double = Some 4%nat /\
  (4 <= 5 <= length Examples.ones5)%nat /\
  exists (f' : DigitalBiquadFilter float) (buf' : list float),
    Biquad.process_block Examples.avx_double Examples.fir
      (Some Examples.ones5) 5 = (f', Some buf', true) /\
    length buf' = length Examples.ones5 /\
    skipn (4 * (5 / 4)) buf' = skipn (4 * (5 / 4)) Examples.ones5 /\
    m_iter f' = m_iter Examples.fir /\
    m_coefficients f' = m_coefficients Examples.fir.
Proof.
  split; [reflexivity|]. split; [simpl; lia|].
  apply (vector_block_extent float _ Examples.avx_double 4 Examples.fir
           Examples.ones5 5 eq_refl).
  simpl; lia.
Defined.

(** X3: whenever no vector loop runs, that is on a build without vector
    unit or for a block shorter than one register of the target, the block
    call is the sequence of single-sample calls and returns true. *)
Theorem block_sequential_below_register :
  forall (T : Type) (F : Floating T) (t : Target)
         (f : DigitalBiquadFilter T) (buf : list T) (count : nat),
    (0 < count <= length buf)%nat ->
    (isa t = NoSIMD \/ exists W : nat, lanes t = Some W /\ (count < W)%nat) ->
    Biquad.process_block t f (Some buf) count =
    (Biquad.sequential_block f buf count, true).
Proof.
  intros T F t f buf count Hc [Hs|(W & HW & Hlt)].
  - destruct t as [i p]. cbn [isa] in Hs. subst i.
    apply process_block_NoSIMD_sequential. exact Hc.
  - rewrite (process_block_on_lanes t W) by (assumption || lia).
    rewrite process_block_lanes_short by assumption. reflexivity.
Qed.

Lemma block_sequential_below_register_witness :
  (0 < 3 <= length Examples.ones5)%nat /\
  (isa Examples.avx_double = NoSIMD \/
   exists W : nat, lanes Examples.avx_double = Some W /\ (3 < W)%nat) /\
  Biquad.process_block Examples.avx_double Examples.fir (Some Examples.ones5) 3 =
  (Biquad.sequential_block Examples.fir Examples.ones5 3, true).
Proof.
  assert (Hc : (0 < 3 <= length Examples.ones5)%nat) by (simpl; lia).
  assert (Hw : isa Examples.avx_double = NoSIMD \/
               exists W : nat, lanes Examples.avx_double = Some W /\ (3 < W)%nat).
  { right. exists 4%nat. split; [reflexivity|lia]. }
  split; [exact Hc|]. split; [exact Hw|].
  exact (block_sequential_below_register float _ Examples.avx_double
           Examples.fir Examples.ones5 3 Hc Hw).
Defined.

(** X4: for a [T] that is neither [float] nor [double], a build with AVX,
    SSE4.1 or NEON has no branch to run: the block call returns true and
    has processed nothing, whatever the count. *)
Theorem block_other_precision_untouched :
  forall (T : Type) (F : Floating T) (t : Target)
         (f : DigitalBiquadFilter T) (buf : list T) (count : nat),
    isa t <> NoSIMD -> precision t = LongDouble -> (0 < count)%nat ->
    Biquad.process_block t f (Some buf) count = (f, Some buf, true).
Proof.
  intros T F t f buf count Hi Hp Hc. unfold Biquad.process_block.
  destruct (Nat.leb_spec count 0); [lia|].
  unfold Biquad.process_block_avx, Biquad.process_block_sse,
    Biquad.process_block_neon.
  rewrite Hp. destruct (isa t); [contradiction|reflexivity..].
Qed.

Lemma block_other_precision_untouched_witness :
  isa {| isa := NEON; precision := LongDouble |} <> NoSIMD /\
  precision {| isa := NEON; precision := LongDouble |} = LongDouble /\
  (0 < 5)%nat /\
  Biquad.process_block {| isa := NEON; precision := LongDouble |}
    Examples.fir (Some Examples.ones5) 5 = (Examples.fir, Some Examples.ones5, true).
Proof.
  assert (Hi : isa {| isa := NEON; precision := LongDouble |} <> NoSIMD)
    by discriminate.
  split; [exact Hi|]. split; [reflexivity|]. split; [lia|].
  apply (block_other_precision_untouched float _ _ Examples.fir
           Examples.ones5 5 Hi eq_refl).
  lia.
Defined.

(** X5: a null buffer or a zero count makes the engine's block call return
    false with the filter and the buffer untouched, on every target; the
    wrapper drops that flag and, unless bypassed or without core, returns
    true with the object unchanged. *)
Theorem block_null_or_empty :
  forall (T : Type) (F : Floating T) (t : Target)
         (core : DigitalBiquadFilter T) (obj : FilterObject T)
         (samples : option (list T)) (count : nat),
    samples = None \/ count = 0%nat ->
    Biquad.process_block t core samples count = (core, samples, false) /\
    (m_bypass obj = false -> m_filter obj = Some core ->
     Filter.process_block t obj samples count = (obj, samples, true)).
Proof.
  intros T F t core obj samples count Hin.
  assert (E : Biquad.process_block t core samples count = (core, samples, false)).
  { unfold Biquad.process_block. destruct Hin as [->| ->]; [reflexivity|].
    destruct samples; reflexivity. }
  split; [exact E|].
  intros Hb Hf. unfold Filter.process_block. rewrite Hb, Hf, E.
  destruct obj; cbn in *. subst. reflexivity.
Qed.

Lemma block_null_or_empty_witness :
  (@None (list float) = None \/ 7%nat = 0%nat) /\
  Biquad.process_block Examples.avx_double Examples.used None 7
  = (Examples.used, None, false) /\
  Filter.process_block Examples.avx_double
    (Filter.set_bypass Examples.bypassed false) None 7
  = (Filter.set_bypass Examples.bypassed false, None, true).
Proof.
  assert (Hin : @None (list float) = None \/ 7%nat = 0%nat)
    by (left; reflexivity).
  split; [exact Hin|].
  destruct (block_null_or_empty float _ Examples.avx_double Examples.used
              (Filter.set_bypass Examples.bypassed false) None 7 Hin)
    as [He Hw].
  split; [exact He|]. apply Hw; reflexivity.
Defined.

Section EngineInvariants.
Context {T : Type} `{Floating T}.
Open Scope flt_scope.

Lemma set_coefficients_accepted (f : DigitalBiquadFilter T) (c : Coefficients T) :
  (a0 c == #0) = false ->
  Biquad.set_coefficients f c = (Biquad.construct c, true).
Proof. intros E. unfold Biquad.set_coefficients. rewrite E. reflexivity. Qed.

Lemma set_coefficients_refused (f : DigitalBiquadFilter T) (c : Coefficients T) :
  (a0 c == #0) = true -> Biquad.set_coefficients f c = (f, false).
Proof. intros E. unfold Biquad.set_coefficients. rewrite E. reflexivity. Qed.

Lemma engine_call_a0 (t : Target) (f : DigitalBiquadFilter T)
    (c : EngineCall (T:=T)) :
  a0 (m_coefficients f) = #1 ->
  a0 (m_coefficients (engine_call t f c)) = #1.
Proof.
  intros Hf. destruct c as [x|samples count|c|]; cbn [engine_call].
  - exact Hf.
  - rewrite process_block_coefficients. exact Hf.
  - unfold Biquad.set_coefficients.
    destruct (a0 c == #0); [exact Hf|reflexivity].
  - exact Hf.
Qed.

Lemma engine_call_processing (t : Target) (f : DigitalBiquadFilter T)
    (c : EngineCall (T:=T)) :
  (forall k, c <> DoSetCoefficients k) ->
  m_coefficients (engine_call t f c) = m_coefficients f.
Proof.
  intros Hc. destruct c as [x|samples count|k|]; cbn [engine_call].
  - reflexivity.
  - apply process_block_coefficients.
  - now destruct (Hc k).
  - reflexivity.
Qed.

End EngineInvariants.

(** X6: an engine obtained from [create] stores [a0 = 1] after any
    sequence of [process], block [process], [set_coefficients] (accepted
    or refused) and [reset] calls, on every target. *)
Theorem created_engine_keeps_a0_one :
  forall (T : Type) (F : Floating T) (t : Target) (c : Coefficients T)
         (f : DigitalBiquadFilter T) (cs : list EngineCall),
    Biquad.create c = Some f ->
    a0 (m_coefficients (engine_calls t f cs)) = (#1)%flt.
Proof.
  intros T F t c f cs Hcreate.
  assert (Hf : a0 (m_coefficients f) = (#1)%flt).
  { unfold Biquad.create in Hcreate.
    destruct (a0 c == #0)%flt; [discriminate|].
    injection Hcreate as <-. reflexivity. }
  clear Hcreate. revert f Hf. unfold engine_calls.
  induction cs as [|k cs IH]; intros f Hf; [exact Hf|].
  cbn [fold_left]. apply IH. apply engine_call_a0. exact Hf.
Qed.

Lemma created_engine_keeps_a0_one_witness :
  Biquad.create Examples.iir_coefficients
    = Some (Biquad.construct Examples.iir_coefficients) /\
  a0 (m_coefficients
        (engine_calls Examples.avx_double
           (Biquad.construct Examples.iir_coefficients)
           [DoProcess 2%float; DoProcessBlock (Some Examples.ones5) 5;
            DoSetCoefficients Examples.fir_coefficients; DoReset]))
  = (#1)%flt.
Proof.
  assert (Hc : Biquad.create Examples.iir_coefficients
               = Some (Biquad.construct Examples.iir_coefficients))
    by (vm_compute; reflexivity).
  split; [exact Hc|].
  exact (created_engine_keeps_a0_one float _ Examples.avx_double
           Examples.iir_coefficients _ _ Hc).
Defined.

(** X7: [reset] erases the processing history: after any sequence of
    single-sample and block [process] calls and resets, on any target,
    [reset] gives the filter that [reset] gives at the start. *)
Theorem reset_forgets_processing :
  forall (T : Type) (F : Floating T) (t : Target)
         (f : DigitalBiquadFilter T) (cs : list EngineCall),
    (forall c k, In c cs -> c <> DoSetCoefficients k) ->
    Biquad.reset (engine_calls t f cs) = Biquad.reset f.
Proof.
  intros T F t f cs. revert f. unfold engine_calls.
  induction cs as [|c cs IH]; intros f Hcs; [reflexivity|].
  cbn [fold_left]. rewrite IH.
  - unfold Biquad.reset. f_equal. apply engine_call_processing.
    intros k. apply Hcs. left; reflexivity.
  - intros c' k Hin. apply Hcs. right; exact Hin.
Qed.

Lemma reset_forgets_processing_witness :
  (forall c k, In c [DoProcess 2%float; DoProcessBlock (Some Examples.ones5) 5] ->
               c <> DoSetCoefficients k) /\
  Biquad.reset
    (engine_calls Examples.avx_double Examples.used
       [DoProcess 2%float; DoProcessBlock (Some Examples.ones5) 5])
  = Biquad.reset Examples.used.
Proof.
  assert (Hcs : forall c k,
             In c [DoProcess 2%float; DoProcessBlock (Some Examples.ones5) 5] ->
             c <> DoSetCoefficients k).
  { intros c k [<-|[<-|[]]]; discriminate. }
  split; [exact Hcs|].
  exact (reset_forgets_processing float _ Examples.avx_double Examples.used _ Hcs).
Defined.

(** ** The earlier engine against the normalising one *)

Section LegacyFacts.
Context {T : Type} `{Floating T}.
Open Scope flt_scope.

Lemma legacy_process_step (fl fn : DigitalBiquadFilter T) (x : T) :
  normalizes fl fn ->
  snd (Legacy.process fl x) = snd (Biquad.process fn x) /\
  normalizes (fst (Legacy.process fl x)) (fst (Biquad.process fn x)).
Proof.
  intros (Hc & Hs & Hi).
  unfold Legacy.process, Biquad.process, normalizes; cbn [fst snd m_coefficients
    m_state m_iter].
  rewrite Hc, Hs, Hi. cbn. repeat split.
Qed.

Lemma legacy_block_loop (n : nat) :
  forall (i : nat) (fl fn : DigitalBiquadFilter T) (samples : list T),
    normalizes fl fn ->
    snd (Legacy.block_loop n i fl samples) = snd (Biquad.scalar_loop n i fn samples) /\
    normalizes (fst (Legacy.block_loop n i fl samples))
               (fst (Biquad.scalar_loop n i fn samples)).
Proof.
  induction n as [|n IH]; intros i fl fn samples Hr.
  - split; [reflexivity|exact Hr].
  - cbn [Legacy.block_loop Biquad.scalar_loop].
    destruct (nth_error samples i) as [x|]; [|split; [reflexivity|exact Hr]].
    destruct (legacy_process_step fl fn x Hr) as [Hy Hr'].
    destruct (Legacy.process fl x) as [fl1 yl].
    destruct (Biquad.process fn x) as [fn1 yn].
    cbn [fst snd] in Hy, Hr'. subst yn.
    apply IH. exact Hr'.
Qed.

End LegacyFacts.

(** X8: the earlier header, which keeps the coefficients as given and
    divides by [a0] in every call, and the normalising header agree: both
    factories refuse the same coefficient sets, and from filters created
    from the same coefficients the scalar block calls leave the same
    buffer, the same state, the same counter and the same flag, in every
    arithmetic. *)
Theorem legacy_engine_agrees :
  forall (T : Type) (F : Floating T) (p : Precision) (c : Coefficients T)
         (samples : option (list T)) (count : nat),
    (Legacy.create c = None <-> Biquad.create c = None) /\
    forall fl fn : DigitalBiquadFilter T,
      Legacy.create c = Some fl -> Biquad.create c = Some fn ->
      let rl := Legacy.process_block fl samples count in
      let rn := Biquad.process_block {| isa := NoSIMD; precision := p |}
                  fn samples count in
      snd (fst rl) = snd (fst rn) /\ snd rl = snd rn /\
      m_state (fst (fst rl)) = m_state (fst (fst rn)) /\
      m_iter (fst (fst rl)) = m_iter (fst (fst rn)).
Proof.
  intros T F p c samples count.
  unfold Legacy.create, Biquad.create.
  destruct (a0 c == #0)%flt.
  { split; [tauto|]. intros fl fn E. discriminate E. }
  split; [split; intros E; discriminate E|].
  intros fl fn El En. injection El as <-. injection En as <-.
  unfold Legacy.process_block, Biquad.process_block, Biquad.process_block_scalar.
  destruct samples as [buf|]; [|repeat split].
  destruct (count <=? 0)%nat; [repeat split|].
  cbn [isa].
  assert (Hr : normalizes (Legacy.construct c) (Biquad.construct c))
    by (repeat split).
  destruct (legacy_block_loop count 0 _ _ buf Hr) as [Hb (_ & Hs & Hi)].
  destruct (Legacy.block_loop count 0 (Legacy.construct c) buf) as [fl' bl].
  destruct (Biquad.scalar_loop count 0 (Biquad.construct c) buf) as [fn' bn].
  cbn [fst snd] in *. subst bn. repeat split; congruence.
Qed.

Lemma legacy_engine_agrees_witness :
  Legacy.create Examples.iir_coefficients
    = Some (Legacy.construct Examples.iir_coefficients) /\
  Biquad.create Examples.iir_coefficients
    = Some (Biquad.construct Examples.iir_coefficients) /\
  snd (fst (Legacy.process_block (Legacy.construct Examples.iir_coefficients)
              (Some Examples.ones5) 5))
  = snd (fst (Biquad.process_block {| isa := NoSIMD; precision := Float64 |}
                (Biquad.construct Examples.iir_coefficients)
                (Some Examples.ones5) 5)).
Proof.
  assert (El : Legacy.create Examples.iir_coefficients
               = Some (Legacy.construct Examples.iir_coefficients))
    by (vm_compute; reflexivity).
  assert (En : Biquad.create Examples.iir_coefficients
               = Some (Biquad.construct Examples.iir_coefficients))
    by (vm_compute; reflexivity).
  split; [exact El|]. split; [exact En|].
  destruct (legacy_engine_agrees float _ Float64 Examples.iir_coefficients
              (Some Examples.ones5) 5) as [_ Hag].
  exact (proj1 (Hag _ _ El En)).
Defined.

(** * Further properties of the wrapper *)

Section WrapperSetters.
Context {T : Type} `{Floating T}.
Open Scope flt_scope.

Lemma push_coefficients_core (core : DigitalBiquadFilter T) (g : FilterObject T)
    (c : Coefficients T) :
  m_filter g = Some core ->
  Filter.push_coefficients g c =
  (Filter.with_filter g
     (Some (if a0 c == #0 then core else Biquad.construct c)), true).
Proof.
  intros Hg. unfold Filter.push_coefficients, Biquad.set_coefficients.
  rewrite Hg. destruct (a0 c == #0); reflexivity.
Qed.

Lemma call_frame (t : Target) (f : FilterObject T) (c : Filter.Call (T:=T)) :
  Filter.call t f c = f \/
  (exists core core' : DigitalBiquadFilter T,
      m_filter f = Some core /\
      Filter.call t f c = Filter.with_filter f (Some core') /\
      m_coefficients core' = m_coefficients core).
Proof.
  destruct c as [x|samples count]; cbn [Filter.call];
    unfold Filter.process, Filter.process_block.
  - destruct (m_bypass f); [left; reflexivity|].
    destruct (m_filter f) as [core|] eqn:Hf; [|left; reflexivity].
    right. exists core. destruct (Biquad.process core x) as [core' y] eqn:E.
    exists core'. repeat split.
    unfold Biquad.process in E. injection E as <- _. reflexivity.
  - destruct (m_bypass f); [left; reflexivity|].
    destruct (m_filter f) as [core|] eqn:Hf; [|left; reflexivity].
    right. exists core.
    pose proof (process_block_coefficients t core samples count) as Hc.
    destruct (Biquad.process_block t core samples count) as [[core' s'] b].
    exists core'. repeat split. exact Hc.
Qed.

End WrapperSetters.

(** X9: on an object that owns a core, [set_cutoff], [set_sample_rate] and
    [set_q_factor] with a positive argument, and [set_gain] and
    [set_constant_skirt_gain] with any argument, store the argument and
    return true; the core is rebuilt (normalised new coefficients, zero
    state) when the new [a0] is not zero, and is left with its old
    coefficients and state when it is, the call still returning true.  No
    setter compares the cutoff with half the sample rate. *)
Theorem setters_with_core :
  forall (T : Type) (F : Floating T)
         (calculate_coefficients : FilterObject T -> Coefficients T)
         (f : FilterObject T) (core : DigitalBiquadFilter T)
         (v gain : T) (n : Z) (skirt : bool),
    m_filter f = Some core -> (v <=? #0)%flt = false -> (0 < n)%Z ->
    Filter.set_cutoff calculate_coefficients f v
      = (pushed calculate_coefficients core (Filter.with_cutoff f v), true) /\
    Filter.set_sample_rate calculate_coefficients f n
      = (pushed calculate_coefficients core (Filter.with_sampleRate f n), true) /\
    Filter.set_q_factor calculate_coefficients f v
      = (pushed calculate_coefficients core (Filter.with_qFactor f v), true) /\
    Filter.set_gain calculate_coefficients f gain
      = (pushed calculate_coefficients core (Filter.with_gain f gain), true) /\
    Filter.set_constant_skirt_gain calculate_coefficients f skirt
      = (pushed calculate_coefficients core
           (Filter.with_constantSkirtGain f skirt), true).
Proof.
  intros T F calc f core v gain n skirt Hf Hv Hn.
  assert (Hn' : (n <=? 0)%Z = false) by (apply Z.leb_gt; exact Hn).
  unfold Filter.set_cutoff, Filter.set_sample_rate, Filter.set_q_factor,
    Filter.set_gain, Filter.set_constant_skirt_gain, pushed.
  rewrite Hv, Hn'.
  repeat split; apply push_coefficients_core; exact Hf.
Qed.

Lemma setters_with_core_witness :
  m_filter Examples.bypassed = Some Examples.used /\
  (2000%float <=? #0)%flt = false /\ (0 < 48000)%Z /\
  Filter.set_sample_rate (fun _ => Examples.iir_coefficients)
    Examples.bypassed 48000
  = (pushed (fun _ => Examples.iir_coefficients) Examples.used
       (Filter.with_sampleRate Examples.bypassed 48000), true).
Proof.
  assert (Hv : (2000%float <=? #0)%flt = false) by (vm_compute; reflexivity).
  split; [reflexivity|]. split; [exact Hv|]. split; [lia|].
  apply (setters_with_core float _ (fun _ => Examples.iir_coefficients)
           Examples.bypassed Examples.used 2000%float 6%float 48000 true
           eq_refl Hv).
  lia.
Defined.

(** X10: the bypass flag and the setters do not interact: in each derived
    class a setter called on a bypassed object stores the same parameter
    and rebuilds the same core as on the object with the flag cleared, and
    keeps the flag. *)
Theorem setters_ignore_bypass :
  forall (T : Type) (F : Floating T) (L : Libm T) (k : Filter.FilterKind)
         (f : FilterObject T) (b : bool) (v : T) (n : Z) (skirt : bool),
    let calc := Filter.calculate_coefficients k in
    let lift (r : FilterObject T * bool) := (Filter.with_bypass (fst r) b, snd r) in
    Filter.set_cutoff calc (Filter.with_bypass f b) v
      = lift (Filter.set_cutoff calc f v) /\
    Filter.set_sample_rate calc (Filter.with_bypass f b) n
      = lift (Filter.set_sample_rate calc f n) /\
    Filter.set_q_factor calc (Filter.with_bypass f b) v
      = lift (Filter.set_q_factor calc f v) /\
    Filter.set_bandwidth calc (Filter.with_bypass f b) v
      = lift (Filter.set_bandwidth calc f v) /\
    Filter.set_gain calc (Filter.with_bypass f b) v
      = lift (Filter.set_gain calc f v) /\
    Filter.set_constant_skirt_gain calc (Filter.with_bypass f b) skirt
      = lift (Filter.set_constant_skirt_gain calc f skirt).
Proof.
  intros T F L k f b v n skirt calc lift.
  assert (Hcalc : forall g, calc (Filter.with_bypass g b) = calc g)
    by (intros g; subst calc; destruct k; reflexivity).
  assert (Hpush : forall g c,
             Filter.push_coefficients (Filter.with_bypass g b) c
             = lift (Filter.push_coefficients g c)).
  { intros g c. unfold Filter.push_coefficients, lift.
    cbn [Filter.with_bypass m_filter]. destruct (m_filter g); reflexivity. }
  assert (Hq : forall q, Filter.set_q_factor calc (Filter.with_bypass f b) q
                         = lift (Filter.set_q_factor calc f q)).
  { intros q. unfold Filter.set_q_factor.
    destruct (q <=? #0)%flt; [reflexivity|].
    change (Filter.with_qFactor (Filter.with_bypass f b) q)
      with (Filter.with_bypass (Filter.with_qFactor f q) b).
    rewrite Hcalc. apply Hpush. }
  repeat split.
  - unfold Filter.set_cutoff. destruct (v <=? #0)%flt; [reflexivity|].
    change (Filter.with_cutoff (Filter.with_bypass f b) v)
      with (Filter.with_bypass (Filter.with_cutoff f v) b).
    rewrite Hcalc. apply Hpush.
  - unfold Filter.set_sample_rate. destruct (n <=? 0)%Z; [reflexivity|].
    change (Filter.with_sampleRate (Filter.with_bypass f b) n)
      with (Filter.with_bypass (Filter.with_sampleRate f n) b).
    rewrite Hcalc. apply Hpush.
  - apply Hq.
  - unfold Filter.set_bandwidth. destruct (v <=? #0)%flt; [reflexivity|].
    apply Hq.
  - unfold Filter.set_gain.
    change (Filter.with_gain (Filter.with_bypass f b) v)
      with (Filter.with_bypass (Filter.with_gain f v) b).
    rewrite Hcalc. apply Hpush.
  - unfold Filter.set_constant_skirt_gain.
    change (Filter.with_constantSkirtGain (Filter.with_bypass f b) skirt)
      with (Filter.with_bypass (Filter.with_constantSkirtGain f skirt) b).
    rewrite Hcalc. apply Hpush.
Qed.

(** X11: [process] calls, on samples or blocks and on any target, never
    change the design parameters nor the bypass flag, never create or drop
    the core, and leave the core's coefficients as they are. *)
Theorem process_calls_keep_parameters :
  forall (T : Type) (F : Floating T) (t : Target) (f : FilterObject T)
         (cs : list Filter.Call),
    let f' := Filter.calls t f cs in
    m_cutoff f' = m_cutoff f /\ m_sampleRate f' = m_sampleRate f /\
    m_qFactor f' = m_qFactor f /\ m_gain f' = m_gain f /\
    m_constantSkirtGain f' = m_constantSkirtGain f /\
    m_bypass f' = m_bypass f /\
    option_map (@m_coefficients T) (m_filter f')
      = option_map (@m_coefficients T) (m_filter f).
Proof.
  intros T F t f cs. revert f. unfold Filter.calls.
  induction cs as [|c cs IH]; intros f; [cbv zeta; repeat split|].
  cbn [fold_left]. cbv zeta.
  specialize (IH (Filter.call t f c)). cbv zeta in IH.
  destruct IH as (I1 & I2 & I3 & I4 & I5 & I6 & I7).
  rewrite I1, I2, I3, I4, I5, I6, I7.
  destruct (call_frame t f c) as [E|(core & core' & Hf & Hc & Hco)].
  - rewrite E. repeat split.
  - rewrite Hc. cbn [Filter.with_filter m_cutoff m_sampleRate m_qFactor
      m_gain m_constantSkirtGain m_bypass m_filter]. rewrite Hf. cbn [option_map].
    rewrite Hco. repeat split.
Qed.

(** X12: an object returned by a factory stores the arguments it was
    given and is not bypassed; the gain is stored by the shelving and
    peaking classes only and the skirt flag by the band-pass only, the
    other classes keeping [0.0] and [false]. *)
Theorem created_object_getters :
  forall (T : Type) (F : Floating T) (L : Libm T) (k : Filter.FilterKind)
         (cutoff : T) (sampleRate : Z) (qFactor gain : T) (skirt : bool)
         (obj : FilterObject T),
    Filter.create k cutoff sampleRate qFactor gain skirt = Some obj ->
    Filter.get_cutoff obj = cutoff /\
    Filter.get_sample_rate obj = sampleRate /\
    Filter.get_q_factor obj = qFactor /\
    Filter.get_gain obj = (if Filter.takes_gain k then gain else (#0)%flt) /\
    Filter.get_constant_skirt_gain obj
      = (if Filter.takes_constantSkirtGain k then skirt else false) /\
    Filter.get_bypass obj = false /\
    (0 < sampleRate)%Z /\ m_filter obj <> None.
Proof.
  intros T F L k cutoff sampleRate qFactor gain skirt obj Hc.
  unfold Filter.create in Hc.
  destruct (Filter.verify_parameters cutoff sampleRate qFactor) eqn:Hv;
    [|discriminate Hc].
  cbn [negb] in Hc.
  destruct (m_filter (Filter.construct k cutoff sampleRate qFactor gain skirt))
    eqn:Hf; [|discriminate Hc].
  injection Hc as <-.
  assert (Hs : (0 < sampleRate)%Z).
  { unfold Filter.verify_parameters in Hv.
    destruct (Z.leb_spec sampleRate 0); [discriminate Hv|assumption]. }
  rewrite Hf. unfold Filter.construct.
  destruct (Filter.takes_gain k), (Filter.takes_constantSkirtGain k);
    repeat split; try exact Hs; discriminate.
Qed.

Lemma created_object_getters_witness :
  Filter.create Filter.Notch 1000%R 44100 (1 / 2)%R 6%R true
    = Some (Filter.construct Filter.Notch 1000%R 44100 (1 / 2)%R 6%R true) /\
  Filter.get_cutoff
    (Filter.construct Filter.Notch 1000%R 44100 (1 / 2)%R 6%R true) = 1000%R /\
  Filter.get_gain
    (Filter.construct Filter.Notch 1000%R 44100 (1 / 2)%R 6%R true) = 0%R.
Proof.
  assert (Hc : Filter.create Filter.Notch 1000%R 44100 (1 / 2)%R 6%R true
               = Some (Filter.construct Filter.Notch 1000%R 44100 (1 / 2)%R 6%R true)).
  { apply create_verified. apply verify_parameters_true_iff.
    repeat split; (lia || lra). }
  split; [exact Hc|].
  destruct (created_object_getters R _ _ Filter.Notch 1000%R 44100 (1 / 2)%R
              6%R true _ Hc) as (H1 & _ & _ & H4 & _).
  split; [exact H1|exact H4].
Defined.

(** * Further properties over the real numbers *)

Section RealSetters.
Open Scope R_scope.

Lemma calculate_coefficients_with_filter (k : Filter.FilterKind)
    (g : FilterObject R) (core : option (DigitalBiquadFilter R)) :
  Filter.calculate_coefficients k (Filter.with_filter g core)
  = Filter.calculate_coefficients k g.
Proof. destruct k; reflexivity. Qed.

Lemma create_accepts_positive_a0 (c : Coefficients R) :
  0 < a0 c -> Biquad.create c = Some (Biquad.construct c).
Proof.
  intros Ha. unfold Biquad.create.
  replace (a0 c == #0)%flt with false; [reflexivity|].
  symmetry. apply Reqb_false. simpl. lra.
Qed.

(** The object a constructor builds from verified parameters. *)
Lemma construct_eq (k : Filter.FilterKind) (this : FilterObject R) :
  verified this ->
  Filter.with_filter this
    (Biquad.create (Filter.calculate_coefficients k this))
  = Filter.with_filter this
      (Some (Biquad.construct (Filter.calculate_coefficients k this))).
Proof.
  intros Hv. rewrite create_accepts_positive_a0; [reflexivity|].
  apply a0_pos. exact Hv.
Qed.

(** A setter that leaves verified parameters behind rebuilds the core from
    them. *)
Lemma push_verified (k : Filter.FilterKind) (g : FilterObject R)
    (core : DigitalBiquadFilter R) :
  m_filter g = Some core -> verified g ->
  Filter.push_coefficients g (Filter.calculate_coefficients k g)
  = (Filter.with_filter g
       (Some (Biquad.construct (Filter.calculate_coefficients k g))), true).
Proof.
  intros Hg Hv. rewrite (push_coefficients_core core) by exact Hg.
  replace (a0 (Filter.calculate_coefficients k g) == #0)%flt with false;
    [reflexivity|].
  symmetry. apply Reqb_false. pose proof (a0_pos k g Hv). simpl. lra.
Qed.

Lemma create_inversion (k : Filter.FilterKind) (cutoff : R) (sampleRate : Z)
    (qFactor gain : R) (skirt : bool) (obj : FilterObject R) :
  Filter.create k cutoff sampleRate qFactor gain skirt = Some obj ->
  Filter.verify_parameters cutoff sampleRate qFactor = true /\
  obj = Filter.construct k cutoff sampleRate qFactor gain skirt.
Proof.
  intros Hc.
  destruct (Filter.verify_parameters cutoff sampleRate qFactor) eqn:Hv.
  - rewrite create_verified in Hc by exact Hv. injection Hc as <-.
    split; reflexivity.
  - rewrite create_unverified in Hc by exact Hv. discriminate Hc.
Qed.

(** Two objects with the same parameters and flag get the same rebuilt
    core, whatever core they had. *)
Lemma rebuilt_eq (k : Filter.FilterKind) (g this : FilterObject R) :
  verified this ->
  m_cutoff g = m_cutoff this /\ m_sampleRate g = m_sampleRate this /\
  m_qFactor g = m_qFactor this /\ m_gain g = m_gain this /\
  m_constantSkirtGain g = m_constantSkirtGain this /\
  m_bypass g = m_bypass this ->
  Filter.with_filter g
    (Some (Biquad.construct (Filter.calculate_coefficients k g)))
  = Filter.with_filter this
      (Biquad.create (Filter.calculate_coefficients k this)).
Proof.
  intros Hv (E1 & E2 & E3 & E4 & E5 & E6).
  rewrite create_accepts_positive_a0 by (apply a0_pos; exact Hv).
  destruct g, this; cbn in *. subst.
  destruct k; reflexivity.
Qed.

End RealSetters.

(** X13: over the real numbers, changing the cutoff, the sample rate or
    the quality factor of a created object to values that
    [verify_parameters] accepts returns true and leaves exactly the object
    that the factory builds from the new values: nothing of the old core
    survives. *)
Theorem setter_is_recreation :
  forall (k : Filter.FilterKind) (cutoff : R) (sampleRate : Z)
         (qFactor gain : R) (skirt : bool) (obj : FilterObject R)
         (cutoff' : R) (sampleRate' : Z) (qFactor' : R),
    Filter.create k cutoff sampleRate qFactor gain skirt = Some obj ->
    Filter.verify_parameters cutoff' sampleRate qFactor = true ->
    Filter.verify_parameters cutoff sampleRate' qFactor = true ->
    Filter.verify_parameters cutoff sampleRate qFactor' = true ->
    let calc := Filter.calculate_coefficients k in
    Some (fst (Filter.set_cutoff calc obj cutoff'))
      = Filter.create k cutoff' sampleRate qFactor gain skirt /\
    snd (Filter.set_cutoff calc obj cutoff') = true /\
    Some (fst (Filter.set_sample_rate calc obj sampleRate'))
      = Filter.create k cutoff sampleRate' qFactor gain skirt /\
    snd (Filter.set_sample_rate calc obj sampleRate') = true /\
    Some (fst (Filter.set_q_factor calc obj qFactor'))
      = Filter.create k cutoff sampleRate qFactor' gain skirt /\
    snd (Filter.set_q_factor calc obj qFactor') = true.
Proof.
  intros k cutoff sampleRate qFactor gain skirt obj cutoff' sampleRate' qFactor'
         Hc Hv1 Hv2 Hv3 calc.
  destruct (create_inversion _ _ _ _ _ _ _ Hc) as [Hv ->].
  destruct (construct_verified k cutoff sampleRate qFactor gain skirt Hv)
    as [core Hcore].
  rewrite (create_verified _ _ _ _ _ _ Hv1), (create_verified _ _ _ _ _ _ Hv2),
    (create_verified _ _ _ _ _ _ Hv3).
  pose proof (proj1 (verify_parameters_true_iff _ _ _) Hv1) as (A1 & B1 & C1 & D1).
  pose proof (proj1 (verify_parameters_true_iff _ _ _) Hv2) as (A2 & B2 & C2 & D2).
  pose proof (proj1 (verify_parameters_true_iff _ _ _) Hv3) as (A3 & B3 & C3 & D3).
  unfold Filter.set_cutoff, Filter.set_sample_rate, Filter.set_q_factor.
  replace (cutoff' <=? #0)%flt with false
    by (symmetry; apply Rleb_false_iff; exact B1).
  replace (sampleRate' <=? 0)%Z with false by (symmetry; apply Z.leb_gt; exact A2).
  replace (qFactor' <=? #0)%flt with false
    by (symmetry; apply Rleb_false_iff; exact C3).
  subst calc.
  rewrite (push_verified k _ core), (push_verified k _ core), (push_verified k _ core);
    try exact Hcore;
    try (unfold verified, Filter.construct;
         destruct (Filter.takes_gain k), (Filter.takes_constantSkirtGain k);
         cbn; repeat split; assumption).
  cbn [fst snd]. unfold Filter.construct.
  repeat split; f_equal; apply rebuilt_eq;
    destruct (Filter.takes_gain k), (Filter.takes_constantSkirtGain k);
    cbn; repeat split; assumption.
Qed.

Lemma setter_is_recreation_witness :
  Filter.create Filter.Notch 1000%R 44100 (1 / 2)%R 0%R false
    = Some Examples.notch /\
  Filter.verify_parameters 2000%R 44100 (1 / 2)%R = true /\
  Filter.verify_parameters 1000%R 48000 (1 / 2)%R = true /\
  Filter.verify_parameters 1000%R 44100 1%R = true /\
  Some (fst (Filter.set_cutoff (Filter.calculate_coefficients Filter.Notch)
               Examples.notch 2000%R))
    = Filter.create Filter.Notch 2000%R 44100 (1 / 2)%R 0%R false.
Proof.
  assert (Hc : Filter.create Filter.Notch 1000%R 44100 (1 / 2)%R 0%R false
               = Some Examples.notch).
  { apply create_verified. apply verify_parameters_true_iff.
    repeat split; (lia || lra). }
  assert (H1 : Filter.verify_parameters 2000%R 44100 (1 / 2)%R = true)
    by (apply verify_parameters_true_iff; repeat split; (lia || lra)).
  assert (H2 : Filter.verify_parameters 1000%R 48000 (1 / 2)%R = true)
    by (apply verify_parameters_true_iff; repeat split; (lia || lra)).
  assert (H3 : Filter.verify_parameters 1000%R 44100 1%R = true)
    by (apply verify_parameters_true_iff; repeat split; (lia || lra)).
  split; [exact Hc|]. split; [exact H1|]. split; [exact H2|]. split; [exact H3|].
  exact (proj1 (setter_is_recreation Filter.Notch 1000%R 44100 (1 / 2)%R 0%R
                  false Examples.notch 2000%R 48000 1%R Hc H1 H2 H3)).
Defined.

(** X14: the setters do not re-check the Nyquist relation: on an object
    with a core, [set_sample_rate] with a positive rate below twice the
    stored cutoff returns true, and so does [set_cutoff] with a cutoff
    above half the stored rate; the stored parameters then fail
    [verify_parameters]. *)
Theorem setters_skip_nyquist :
  forall (calculate_coefficients : FilterObject R -> Coefficients R)
         (f : FilterObject R) (core : DigitalBiquadFilter R)
         (sampleRate : Z) (cutoff : R),
    m_filter f = Some core ->
    (0 < sampleRate)%Z -> (IZR sampleRate / 2 < m_cutoff f)%R ->
    (IZR (m_sampleRate f) / 2 < cutoff)%R -> (0 < cutoff)%R ->
    let r1 := Filter.set_sample_rate calculate_coefficients f sampleRate in
    let r2 := Filter.set_cutoff calculate_coefficients f cutoff in
    snd r1 = true /\
    Filter.verify_parameters (Filter.get_cutoff (fst r1))
      (Filter.get_sample_rate (fst r1)) (Filter.get_q_factor (fst r1)) = false /\
    snd r2 = true /\
    Filter.verify_parameters (Filter.get_cutoff (fst r2))
      (Filter.get_sample_rate (fst r2)) (Filter.get_q_factor (fst r2)) = false.
Proof.
  intros calc f core sampleRate cutoff Hf Hs Hgap1 Hgap2 Hc r1 r2.
  subst r1 r2.
  unfold Filter.set_sample_rate, Filter.set_cutoff.
  replace (sampleRate <=? 0)%Z with false by (symmetry; apply Z.leb_gt; exact Hs).
  replace (cutoff <=? #0)%flt with false
    by (symmetry; apply Rleb_false_iff; exact Hc).
  rewrite !(push_coefficients_core core) by exact Hf.
  cbn [fst snd Filter.get_cutoff Filter.get_sample_rate Filter.get_q_factor
       Filter.with_filter Filter.with_sampleRate Filter.with_cutoff
       m_cutoff m_sampleRate m_qFactor].
  split; [reflexivity|]. split.
  { destruct (Filter.verify_parameters (m_cutoff f) sampleRate (m_qFactor f))
      eqn:Hv; [|reflexivity].
    apply verify_parameters_true_iff in Hv. lra. }
  split; [reflexivity|].
  destruct (Filter.verify_parameters cutoff (m_sampleRate f) (m_qFactor f))
    eqn:Hv; [|reflexivity].
  apply verify_parameters_true_iff in Hv. lra.
Qed.

Lemma setters_skip_nyquist_witness :
  m_filter RealExamples.wrapped = Some RealExamples.unit_core /\
  (0 < 1500)%Z /\ (IZR 1500 / 2 < m_cutoff RealExamples.wrapped)%R /\
  (IZR (m_sampleRate RealExamples.wrapped) / 2 < 30000)%R /\ (0 < 30000)%R /\
  snd (Filter.set_sample_rate (Filter.calculate_coefficients Filter.LowPass)
         RealExamples.wrapped 1500) = true.
Proof.
  assert (H1 : (IZR 1500 / 2 < m_cutoff RealExamples.wrapped)%R) by (simpl; lra).
  assert (H2 : (IZR (m_sampleRate RealExamples.wrapped) / 2 < 30000)%R)
    by (simpl; lra).
  assert (H3 : (0 < 30000)%R) by lra.
  assert (H0 : (0 < 1500)%Z) by lia.
  split; [reflexivity|]. split; [exact H0|]. split; [exact H1|].
  split; [exact H2|]. split; [exact H3|].
  exact (proj1 (setters_skip_nyquist
                  (Filter.calculate_coefficients Filter.LowPass)
                  RealExamples.wrapped RealExamples.unit_core 1500 30000%R
                  eq_refl H0 H1 H2 H3)).
Defined.

Section RealStability.
Open Scope R_scope.

(** Parameters strictly inside the Nyquist range. *)
Lemma w0_interior (f : FilterObject R) :
  verified f -> m_cutoff f < IZR (m_sampleRate f) / 2 ->
  0 < Filter.w0_of f < PI.
Proof.
  intros Hv Hlt. pose proof (w0_range f Hv) as [Hlo _].
  destruct Hv as (Hs & Hc & _ & _).
  split; [exact Hlo|]. unfold Filter.w0_of; simpl.
  assert (Hr : 0 < IZR (m_sampleRate f)) by (apply IZR_lt; exact Hs).
  pose proof PI_RGT_0 as Hpi.
  apply (Rmult_lt_reg_r (IZR (m_sampleRate f))); [exact Hr|].
  unfold Rdiv. rewrite Rmult_assoc, Rinv_l by lra. nra.
Qed.

Lemma cos_interior (x : R) : 0 < x < PI -> -1 < cos x < 1.
Proof.
  intros [Hlo Hhi]. pose proof PI_RGT_0.
  split.
  - rewrite <- cos_PI. apply cos_decreasing_1; lra.
  - rewrite <- cos_0. apply cos_decreasing_1; lra.
Qed.

(** The stability triangle on the coefficients as computed, before the
    division by [a0]. *)
Lemma raw_stability (k : Filter.FilterKind) (f : FilterObject R) :
  verified f -> m_cutoff f < IZR (m_sampleRate f) / 2 ->
  let c := Filter.calculate_coefficients k f in
  0 < a0 c /\ - a0 c < a2 c < a0 c /\ - (a0 c + a2 c) < a1 c < a0 c + a2 c.
Proof.
  intros Hv Hlt.
  pose proof (w0_interior f Hv Hlt) as Hw.
  pose proof (cos_interior _ Hw) as Hc.
  assert (Hsin : 0 < sin (Filter.w0_of f)) by (apply sin_gt_0; lra).
  assert (Ha : 0 < Filter.alpha_of f).
  { change (Filter.alpha_of f) with (sin (Filter.w0_of f) / (2 * m_qFactor f)).
    destruct Hv as (_ & _ & Hq & _). apply Rdiv_lt_0_compat; lra. }
  pose proof (A_pos f) as HA.
  assert (Hs : 0 < sqrt (Filter.A_of f)) by (apply sqrt_lt_R0; exact HA).
  assert (Hq : 0 < Filter.alpha_of f / Filter.A_of f)
    by (apply Rdiv_lt_0_compat; assumption).
  assert (Hsa : 0 < sqrt (Filter.A_of f) * Filter.alpha_of f)
    by (apply Rmult_lt_0_compat; assumption).
  assert (Hp : 0 < Filter.A_of f * (1 + cos (Filter.w0_of f)))
    by (apply Rmult_lt_0_compat; lra).
  assert (Hm : 0 < Filter.A_of f * (1 - cos (Filter.w0_of f)))
    by (apply Rmult_lt_0_compat; lra).
  destruct k; unfold Filter.calculate_coefficients;
    try (unfold Filter.BandPass_coefficients; destruct (m_constantSkirtGain f));
    cbn -[Filter.alpha_of Filter.A_of Filter.w0_of];
    repeat split; lra.
Qed.

Lemma ratio_bounds (n d : R) : 0 < d -> - d < n < d -> -1 < n / d < 1.
Proof.
  intros Hd [Hlo Hhi]. split.
  - apply (Rmult_lt_reg_r d); [exact Hd|].
    unfold Rdiv. rewrite Rmult_assoc, Rinv_l by lra. lra.
  - apply (Rmult_lt_reg_r d); [exact Hd|].
    unfold Rdiv. rewrite Rmult_assoc, Rinv_l by lra. lra.
Qed.

End RealStability.

(** X15: over the real numbers, every filter a factory returns for a
    cutoff strictly below half the sample rate is stable: the denominator
    stored in its core satisfies [a0 = 1], [|a2| < 1] and
    [|a1| < 1 + a2], the condition for both poles to lie inside the unit
    circle. *)
Theorem created_filter_stable :
  forall (k : Filter.FilterKind) (cutoff : R) (sampleRate : Z)
         (qFactor gain : R) (skirt : bool) (obj : FilterObject R)
         (core : DigitalBiquadFilter R),
    Filter.create k cutoff sampleRate qFactor gain skirt = Some obj ->
    m_filter obj = Some core ->
    (cutoff < IZR sampleRate / 2)%R ->
    a0 (m_coefficients core) = 1%R /\
    (Rabs (a2 (m_coefficients core)) < 1)%R /\
    (Rabs (a1 (m_coefficients core)) < 1 + a2 (m_coefficients core))%R.
Proof.
  intros k cutoff sampleRate qFactor gain skirt obj core Hc Hf Hlt.
  destruct (create_inversion _ _ _ _ _ _ _ Hc) as [Hv ->].
  apply verify_parameters_true_iff in Hv.
  unfold Filter.construct in Hf.
  set (this := if Filter.takes_constantSkirtGain k then _ else _) in Hf.
  assert (Hthis : verified this /\ (m_cutoff this < IZR (m_sampleRate this) / 2)%R).
  { subst this. unfold verified.
    destruct (Filter.takes_constantSkirtGain k), (Filter.takes_gain k);
      cbn; split; assumption. }
  destruct Hthis as [Hver Hint].
  cbn [Filter.with_filter m_filter] in Hf.
  destruct (raw_stability k this Hver Hint) as (H0 & H2 & H1).
  rewrite create_accepts_positive_a0 in Hf by exact H0.
  injection Hf as <-.
  set (c := Filter.calculate_coefficients k this) in *.
  cbn [Biquad.construct m_coefficients Biquad.normalize_coefficients a0 a1 a2
       b0 b1 b2].
  change (a2 c / a0 c)%flt with (a2 c / a0 c)%R.
  change (a1 c / a0 c)%flt with (a1 c / a0 c)%R.
  split; [reflexivity|].
  pose proof (ratio_bounds (a2 c) (a0 c) H0 H2) as B2.
  assert (B1 : (- (1 + a2 c / a0 c) < a1 c / a0 c < 1 + a2 c / a0 c)%R).
  { replace (1 + a2 c / a0 c)%R with ((a0 c + a2 c) / a0 c)%R by (field; lra).
    split.
    - apply (Rmult_lt_reg_r (a0 c)); [exact H0|].
      unfold Rdiv. rewrite Ropp_mult_distr_l, !Rmult_assoc, Rinv_l by lra. lra.
    - apply (Rmult_lt_reg_r (a0 c)); [exact H0|].
      unfold Rdiv. rewrite !Rmult_assoc, Rinv_l by lra. lra. }
  split; apply Rabs_def1; lra.
Qed.

Lemma notch_core :
  m_filter Examples.notch
  = Some (Biquad.construct
            (Filter.calculate_coefficients Filter.Notch Examples.coreless)).
Proof.
  change (m_filter Examples.notch)
    with (Biquad.create (Filter.calculate_coefficients Filter.Notch Examples.coreless)).
  apply create_accepts_positive_a0. apply a0_pos.
  unfold verified; cbn. repeat split; (lia || lra).
Defined.

Lemma created_filter_stable_witness :
  Filter.create Filter.Notch 1000%R 44100 (1 / 2)%R 0%R false
    = Some Examples.notch /\
  m_filter Examples.notch
    = Some (Biquad.construct
              (Filter.calculate_coefficients Filter.Notch Examples.coreless)) /\
  (1000 < IZR 44100 / 2)%R /\
  (Rabs (a2 (m_coefficients
               (Biquad.construct
                  (Filter.calculate_coefficients Filter.Notch Examples.coreless))))
   < 1)%R.
Proof.
  assert (Hc : Filter.create Filter.Notch 1000%R 44100 (1 / 2)%R 0%R false
               = Some Examples.notch).
  { apply create_verified. apply verify_parameters_true_iff.
    repeat split; (lia || lra). }
  assert (Hn : (1000 < IZR 44100 / 2)%R) by lra.
  split; [exact Hc|]. split; [exact notch_core|]. split; [exact Hn|].
  exact (proj1 (proj2 (created_filter_stable Filter.Notch 1000%R 44100
                         (1 / 2)%R 0%R false Examples.notch _ Hc notch_core Hn))).
Defined.

(** X16: the low-pass and high-pass coefficients are complementary at the
    band edges: the low-pass has unit gain at zero frequency (numerator and
    denominator have the same sum) and a zero at the Nyquist frequency
    (the alternating sum of the numerator is 0); the high-pass has a zero
    at zero frequency and unit gain at the Nyquist frequency. *)
Theorem low_high_pass_band_edges :
  forall f : FilterObject R,
    let lp := Filter.calculate_coefficients Filter.LowPass f in
    let hp := Filter.calculate_coefficients Filter.HighPass f in
    (b0 lp + b1 lp + b2 lp = a0 lp + a1 lp + a2 lp)%R /\
    (b0 lp - b1 lp + b2 lp = 0)%R /\
    (b0 hp + b1 hp + b2 hp = 0)%R /\
    (b0 hp - b1 hp + b2 hp = a0 hp - a1 hp + a2 hp)%R.
Proof.
  intros f. cbn -[Filter.alpha_of Filter.w0_of].
  repeat split; field.
Qed.

(** X17: the band-pass coefficients, with or without constant skirt gain,
    have zeros at zero frequency and at the Nyquist frequency; the notch
    has unit gain at both and its numerator vanishes at the cutoff
    frequency, [b0 + b1 e^(-j w0) + b2 e^(-2 j w0) = 0] in real and
    imaginary part. *)
Theorem band_pass_notch_zeros :
  forall f : FilterObject R,
    let bp := Filter.calculate_coefficients Filter.BandPass f in
    let n := Filter.calculate_coefficients Filter.Notch f in
    let w0 := Filter.w0_of f in
    (b0 bp + b1 bp + b2 bp = 0)%R /\ (b0 bp - b1 bp + b2 bp = 0)%R /\
    (b0 n + b1 n + b2 n = a0 n + a1 n + a2 n)%R /\
    (b0 n - b1 n + b2 n = a0 n - a1 n + a2 n)%R /\
    (b0 n + b1 n * cos w0 + b2 n * cos (2 * w0) = 0)%R /\
    (b1 n * sin w0 + b2 n * sin (2 * w0) = 0)%R.
Proof.
  intros f bp n w0. subst bp n.
  unfold Filter.calculate_coefficients, Filter.BandPass_coefficients.
  fold w0.
  assert (Hc : cos (2 * w0) = (2 * cos w0 * cos w0 - 1)%R) by apply cos_2a_cos.
  assert (Hs : sin (2 * w0) = (2 * sin w0 * cos w0)%R) by apply sin_2a.
  destruct (m_constantSkirtGain f);
    cbn -[Filter.alpha_of Filter.w0_of]; fold w0;
    rewrite Hc, Hs; repeat split; ring.
Qed.

(** X18: the all-pass filter has gain 1 at every frequency: for every
    [w] the squared magnitudes of the numerator and of the denominator at
    [e^(j w)] are equal (the numerator is the denominator in reverse
    order). *)
Theorem all_pass_unit_magnitude :
  forall (f : FilterObject R) (w : R),
    let c := Filter.calculate_coefficients Filter.AllPass f in
    ((b0 c + b1 c * cos w + b2 c * cos (2 * w)) ^ 2
     + (b1 c * sin w + b2 c * sin (2 * w)) ^ 2
     = (a0 c + a1 c * cos w + a2 c * cos (2 * w)) ^ 2
       + (a1 c * sin w + a2 c * sin (2 * w)) ^ 2)%R.
Proof.
  intros f w.
  cbn -[Filter.alpha_of Filter.w0_of pow].
  rewrite cos_2a_cos, sin_2a.
  pose proof (sin2_cos2 w) as Hsc. unfold Rsqr in Hsc.
  set (c := cos w) in *. set (s := sin w) in *.
  set (al := Filter.alpha_of f). set (c0 := cos (Filter.w0_of f)).
  assert (Hs2 : (s ^ 2 = 1 - c ^ 2)%R) by (simpl; lra).
  match goal with
  | |- ?lhs = ?rhs => assert (E : (lhs - rhs = 0)%R); [|lra]
  end.
  ring_simplify. rewrite Hs2. ring.
Qed.

(** X19: the peaking filter boosts its centre frequency by exactly the
    stored gain and nothing at the band edges: with [A = 10^(gain/40)],
    the numerator at [e^(j w0)] is [A^2] times the denominator, in real
    and imaginary part, and numerator and denominator agree at zero
    frequency and at the Nyquist frequency. *)
Theorem peaking_centre_gain :
  forall f : FilterObject R,
    let c := Filter.calculate_coefficients Filter.PeakingEQ f in
    let w0 := Filter.w0_of f in
    let A := Filter.A_of f in
    (b0 c + b1 c * cos w0 + b2 c * cos (2 * w0)
     = A ^ 2 * (a0 c + a1 c * cos w0 + a2 c * cos (2 * w0)))%R /\
    (b1 c * sin w0 + b2 c * sin (2 * w0)
     = A ^ 2 * (a1 c * sin w0 + a2 c * sin (2 * w0)))%R /\
    (b0 c + b1 c + b2 c = a0 c + a1 c + a2 c)%R /\
    (b0 c - b1 c + b2 c = a0 c - a1 c + a2 c)%R.
Proof.
  intros f c w0 A. subst c.
  pose proof (A_pos f) as HA. fold A in HA.
  cbn -[Filter.alpha_of Filter.w0_of Filter.A_of pow]. fold w0 A.
  rewrite cos_2a_cos, sin_2a.
  repeat split; field; lra.
Qed.

(** X20: the shelving filters apply the stored gain at one band edge and
    none at the other: with [A = 10^(gain/40)], the low shelf has gain
    [A^2] at zero frequency and 1 at the Nyquist frequency, the high shelf
    gain 1 at zero frequency and [A^2] at the Nyquist frequency. *)
Theorem shelf_band_edges :
  forall f : FilterObject R,
    let ls := Filter.calculate_coefficients Filter.LowShelf f in
    let hs := Filter.calculate_coefficients Filter.HighShelf f in
    let A := Filter.A_of f in
    (b0 ls + b1 ls + b2 ls = A ^ 2 * (a0 ls + a1 ls + a2 ls))%R /\
    (b0 ls - b1 ls + b2 ls = a0 ls - a1 ls + a2 ls)%R /\
    (b0 hs + b1 hs + b2 hs = a0 hs + a1 hs + a2 hs)%R /\
    (b0 hs - b1 hs + b2 hs = A ^ 2 * (a0 hs - a1 hs + a2 hs))%R.
Proof.
  intros f ls hs A. subst ls hs.
  cbn -[Filter.alpha_of Filter.w0_of Filter.A_of pow]. fold A.
  repeat split; ring.
Qed.

Section RealSignals.
Open Scope R_scope.

(** A filter whose numerator equals its denominator, in a state where the
    input and output histories agree, returns its input. *)
Lemma transparent_process_each (xs : list R) :
  forall f : DigitalBiquadFilter R,
    b0 (m_coefficients f) = 1 ->
    b1 (m_coefficients f) = a1 (m_coefficients f) ->
    b2 (m_coefficients f) = a2 (m_coefficients f) ->
    x1 (m_state f) = y1 (m_state f) -> x2 (m_state f) = y2 (m_state f) ->
    snd (Biquad.process_each f xs) = xs.
Proof.
  induction xs as [|x xs IH]; intros f H0 H1 H2 Hx1 Hx2; [reflexivity|].
  cbn [Biquad.process_each].
  destruct (Biquad.process f x) as [f1 y] eqn:E.
  unfold Biquad.process in E. injection E as Ef Ey.
  assert (Hy : y = x).
  { rewrite <- Ey. simpl. rewrite H0, H1, H2, Hx1, Hx2. ring. }
  specialize (IH f1).
  destruct (Biquad.process_each f1 xs) as [f2 ys]. cbn [snd] in *.
  rewrite Hy. f_equal.
  apply IH; rewrite <- Ef; cbn [m_coefficients m_state x1 x2 y1 y2];
    try assumption.
  rewrite Ey. symmetry. exact Hy.
Qed.

Lemma A_of_zero_gain (f : FilterObject R) : m_gain f = 0 -> Filter.A_of f = 1.
Proof.
  intros Hg. unfold Filter.A_of; simpl. rewrite Hg.
  replace (0 / 40) with 0 by field. apply Rpower_O. lra.
Qed.

Lemma zero_gain_coefficients (k : Filter.FilterKind) (f : FilterObject R) :
  Filter.takes_gain k = true -> m_gain f = 0 ->
  let c := Filter.calculate_coefficients k f in
  b0 c = a0 c /\ b1 c = a1 c /\ b2 c = a2 c.
Proof.
  intros Hk Hg. pose proof (A_of_zero_gain f Hg) as HA.
  destruct k; try discriminate Hk;
    cbn -[Filter.alpha_of Filter.w0_of Filter.A_of];
    rewrite HA, ?sqrt_1; repeat split; field.
Qed.

End RealSignals.

(** X21: over the real numbers, a peaking, low-shelf or high-shelf filter
    created with a gain of 0 dB is transparent: the sequence of
    [process(sample)] calls on the fresh core returns every input sequence
    unchanged. *)
Theorem zero_gain_transparent :
  forall (k : Filter.FilterKind) (cutoff : R) (sampleRate : Z) (qFactor : R)
         (skirt : bool) (obj : FilterObject R) (core : DigitalBiquadFilter R)
         (xs : list R),
    Filter.takes_gain k = true ->
    Filter.create k cutoff sampleRate qFactor 0%R skirt = Some obj ->
    m_filter obj = Some core ->
    snd (Biquad.process_each core xs) = xs.
Proof.
  intros k cutoff sampleRate qFactor skirt obj core xs Hk Hc Hf.
  destruct (create_inversion _ _ _ _ _ _ _ Hc) as [Hv ->].
  apply verify_parameters_true_iff in Hv.
  unfold Filter.construct in Hf. rewrite Hk in Hf.
  set (this := if Filter.takes_constantSkirtGain k then _ else _) in Hf.
  assert (Hthis : verified this /\ m_gain this = 0%R).
  { subst this. unfold verified.
    destruct (Filter.takes_constantSkirtGain k); cbn; split;
      (assumption || reflexivity). }
  destruct Hthis as [Hver Hg].
  cbn [Filter.with_filter m_filter] in Hf.
  pose proof (a0_pos k this Hver) as H0.
  rewrite create_accepts_positive_a0 in Hf by exact H0.
  injection Hf as <-.
  destruct (zero_gain_coefficients k this Hk Hg) as (E0 & E1 & E2).
  apply transparent_process_each; cbn; try reflexivity.
  - rewrite E0. field. lra.
  - now rewrite E1.
  - now rewrite E2.
Qed.

Lemma peaking_flat_core :
  m_filter (Filter.construct Filter.PeakingEQ 1000%R 44100 (1 / 2)%R 0%R false)
  = Some (Biquad.construct
            (Filter.calculate_coefficients Filter.PeakingEQ Examples.coreless)).
Proof.
  change (m_filter
            (Filter.construct Filter.PeakingEQ 1000%R 44100 (1 / 2)%R 0%R false))
    with (Biquad.create
            (Filter.calculate_coefficients Filter.PeakingEQ Examples.coreless)).
  apply create_accepts_positive_a0. apply a0_pos.
  unfold verified; cbn. repeat split; (lia || lra).
Defined.

Lemma zero_gain_transparent_witness :
  Filter.takes_gain Filter.PeakingEQ = true /\
  Filter.create Filter.PeakingEQ 1000%R 44100 (1 / 2)%R 0%R false
    = Some (Filter.construct Filter.PeakingEQ 1000%R 44100 (1 / 2)%R 0%R false) /\
  snd (Biquad.process_each
         (Biquad.construct
            (Filter.calculate_coefficients Filter.PeakingEQ Examples.coreless))
         [1; 2; 3]%R) = [1; 2; 3]%R.
Proof.
  assert (Hc : Filter.create Filter.PeakingEQ 1000%R 44100 (1 / 2)%R 0%R false
               = Some (Filter.construct Filter.PeakingEQ 1000%R 44100
                         (1 / 2)%R 0%R false)).
  { apply create_verified. apply verify_parameters_true_iff.
    repeat split; (lia || lra). }
  split; [reflexivity|]. split; [exact Hc|].
  exact (zero_gain_transparent Filter.PeakingEQ 1000%R 44100 (1 / 2)%R false
           _ _ [1; 2; 3]%R eq_refl Hc peaking_flat_core).
Defined.

Section RealIdentity.
Open Scope R_scope.

Lemma lanewise_mul_ones (W : nat) :
  forall v : list R, length v = W -> Biquad.lanewise Rmult (repeat 1 W) v = v.
Proof.
  induction W as [|W IH]; intros [|a v] Hl; try discriminate Hl; [reflexivity|].
  simpl. rewrite IH by (simpl in Hl; lia). f_equal. ring.
Qed.

Lemma lanewise_mul_zeros (W : nat) :
  forall v : list R, length v = W ->
    Biquad.lanewise Rmult (repeat 0 W) v = repeat 0 W.
Proof.
  induction W as [|W IH]; intros [|a v] Hl; try discriminate Hl; [reflexivity|].
  simpl. rewrite IH by (simpl in Hl; lia). f_equal. ring.
Qed.

Lemma lanewise_add_zeros (W : nat) :
  forall v : list R, length v = W -> Biquad.lanewise Rplus v (repeat 0 W) = v.
Proof.
  induction W as [|W IH]; intros [|a v] Hl; try discriminate Hl; [reflexivity|].
  simpl. rewrite IH by (simpl in Hl; lia). f_equal. ring.
Qed.

Lemma lanewise_sub_zeros (W : nat) :
  forall v : list R, length v = W -> Biquad.lanewise Rminus v (repeat 0 W) = v.
Proof.
  induction W as [|W IH]; intros [|a v] Hl; try discriminate Hl; [reflexivity|].
  simpl. rewrite IH by (simpl in Hl; lia). f_equal. ring.
Qed.

Lemma storeu_loadu (W : nat) (samples : list R) (i : nat) :
  (i + W <= length samples)%nat ->
  Biquad.storeu samples i (Biquad.loadu W samples i) = samples.
Proof.
  intros Hb. unfold Biquad.storeu.
  rewrite loadu_length by exact Hb. unfold Biquad.loadu.
  transitivity (firstn i samples ++ skipn i samples); [|apply firstn_skipn].
  f_equal.
  transitivity (firstn W (skipn i samples) ++ skipn W (skipn i samples));
    [|apply firstn_skipn].
  f_equal. rewrite skipn_skipn. f_equal. lia.
Qed.

(** With the identity coefficients in the registers, the vector loop
    stores back what it loads. *)
Lemma simd_loop_identity (W count : nat) :
  forall (fuel i : nat) (samples vx1 vx2 vy1 vy2 : list R),
    (count <= length samples)%nat ->
    length vx1 = W -> length vx2 = W -> length vy1 = W -> length vy2 = W ->
    fst (Biquad.simd_loop W count fuel i (repeat 1 W) (repeat 0 W) (repeat 0 W)
           (repeat 0 W) (repeat 0 W) samples vx1 vx2 vy1 vy2) = samples.
Proof.
  induction fuel as [|fuel IH]; intros i samples vx1 vx2 vy1 vy2 Hc L1 L2 L3 L4;
    [reflexivity|].
  cbn [Biquad.simd_loop].
  destruct (Nat.ltb_spec (i + (W - 1)) count) as [Hlt|Hge]; [|reflexivity].
  assert (Hb : (i + W <= length samples)%nat) by lia.
  pose proof (loadu_length W samples i Hb) as L0.
  unfold Biquad.vsub, Biquad.vadd, Biquad.vmul.
  change (@fmul R Floating_R) with Rmult.
  change (@fadd R Floating_R) with Rplus.
  change (@fsub R Floating_R) with Rminus.
  rewrite (lanewise_mul_ones W _ L0), (lanewise_mul_zeros W _ L1),
    (lanewise_mul_zeros W _ L2), (lanewise_mul_zeros W _ L3),
    (lanewise_mul_zeros W _ L4).
  rewrite (lanewise_add_zeros W _ L0), (lanewise_add_zeros W _ L0).
  rewrite (lanewise_add_zeros W (repeat 0 W)) by apply repeat_length.
  rewrite (lanewise_sub_zeros W _ L0).
  rewrite storeu_loadu by exact Hb.
  apply IH; assumption.
Qed.

Lemma identity_process_each (xs : list R) :
  forall f : DigitalBiquadFilter R,
    b0 (m_coefficients f) = 1 -> b1 (m_coefficients f) = 0 ->
    b2 (m_coefficients f) = 0 -> a1 (m_coefficients f) = 0 ->
    a2 (m_coefficients f) = 0 ->
    snd (Biquad.process_each f xs) = xs.
Proof.
  induction xs as [|x xs IH]; intros f H0 H1 H2 H3 H4; [reflexivity|].
  cbn [Biquad.process_each].
  destruct (Biquad.process f x) as [f1 y] eqn:E.
  unfold Biquad.process in E. injection E as Ef Ey.
  assert (Hy : y = x).
  { rewrite <- Ey. simpl. rewrite H0, H1, H2, H3, H4. ring. }
  specialize (IH f1).
  destruct (Biquad.process_each f1 xs) as [f2 ys]. cbn [snd] in *.
  rewrite Hy. f_equal.
  apply IH; rewrite <- Ef; cbn [m_coefficients]; assumption.
Qed.

Lemma identity_block_scalar (f : DigitalBiquadFilter R) (buf : list R)
    (count : nat) :
  b0 (m_coefficients f) = 1 -> b1 (m_coefficients f) = 0 ->
  b2 (m_coefficients f) = 0 -> a1 (m_coefficients f) = 0 ->
  a2 (m_coefficients f) = 0 -> (count <= length buf)%nat ->
  snd (Biquad.process_block_scalar f (Some buf) count) = Some buf.
Proof.
  intros H0 H1 H2 H3 H4 Hc.
  destruct (Nat.eq_dec count 0) as [->|Hn]; [reflexivity|].
  rewrite process_block_scalar_sequential by lia.
  unfold Biquad.sequential_block.
  pose proof (identity_process_each (firstn count buf) f H0 H1 H2 H3 H4) as E.
  destruct (Biquad.process_each f (firstn count buf)) as [f' ys].
  cbn [snd] in *. rewrite E, firstn_skipn. reflexivity.
Qed.

Lemma identity_block_lanes (W : nat) (f : DigitalBiquadFilter R) (buf : list R)
    (count : nat) :
  b0 (m_coefficients f) = 1 -> b1 (m_coefficients f) = 0 ->
  b2 (m_coefficients f) = 0 -> a1 (m_coefficients f) = 0 ->
  a2 (m_coefficients f) = 0 -> (count <= length buf)%nat ->
  snd (Biquad.process_block_lanes W f buf count) = Some buf.
Proof.
  intros H0 H1 H2 H3 H4 Hc. unfold Biquad.process_block_lanes.
  destruct (count <? W)%nat; [now apply identity_block_scalar|].
  rewrite H0, H1, H2, H3, H4. unfold Biquad.set1.
  pose proof (simd_loop_identity W count count 0 buf
    (repeat (x1 (m_state f)) W) (repeat (x2 (m_state f)) W)
    (repeat (y1 (m_state f)) W) (repeat (y2 (m_state f)) W) Hc
    (repeat_length _ _) (repeat_length _ _) (repeat_length _ _)
    (repeat_length _ _)) as E.
  destruct (Biquad.simd_loop _ _ _ _ _ _ _ _ _ _ _ _ _ _)
    as [buf' [[[vx1 vx2] vy1] vy2]].
  cbn [fst snd] in *. now rewrite E.
Qed.

End RealIdentity.

(** X22: over the real numbers, an engine holding the identity
    coefficients ([b0 = 1], the others 0 after normalisation) leaves every
    buffer unchanged on every target, scalar or vector and for any count
    within the buffer, whatever its state. *)
Theorem identity_block_every_target :
  forall (t : Target) (f : DigitalBiquadFilter R) (buf : list R) (count : nat),
    b0 (m_coefficients f) = 1%R -> b1 (m_coefficients f) = 0%R ->
    b2 (m_coefficients f) = 0%R -> a1 (m_coefficients f) = 0%R ->
    a2 (m_coefficients f) = 0%R -> (count <= length buf)%nat ->
    snd (fst (Biquad.process_block t f (Some buf) count)) = Some buf.
Proof.
  intros t f buf count H0 H1 H2 H3 H4 Hc.
  unfold Biquad.process_block.
  destruct (count <=? 0)%nat; [reflexivity|]. cbn [fst snd].
  destruct (isa t);
    unfold Biquad.process_block_avx, Biquad.process_block_sse,
      Biquad.process_block_neon;
    try destruct (precision t);
    solve [ now apply identity_block_scalar
          | now apply identity_block_lanes
          | reflexivity ].
Qed.

Lemma identity_block_every_target_witness :
  b0 (m_coefficients RealExamples.unit_core) = 1%R /\
  b1 (m_coefficients RealExamples.unit_core) = 0%R /\
  b2 (m_coefficients RealExamples.unit_core) = 0%R /\
  a1 (m_coefficients RealExamples.unit_core) = 0%R /\
  a2 (m_coefficients RealExamples.unit_core) = 0%R /\
  (5 <= length [0; 1; 2; 3; 4]%R)%nat /\
  snd (fst (Biquad.process_block Examples.avx_double RealExamples.unit_core
              (Some [0; 1; 2; 3; 4]%R) 5)) = Some [0; 1; 2; 3; 4]%R.
Proof.
  assert (E0 : b0 (m_coefficients RealExamples.unit_core) = 1%R)
    by (cbn; field).
  assert (E1 : b1 (m_coefficients RealExamples.unit_core) = 0%R)
    by (cbn; field).
  assert (E2 : b2 (m_coefficients RealExamples.unit_core) = 0%R)
    by (cbn; field).
  assert (E3 : a1 (m_coefficients RealExamples.unit_core) = 0%R)
    by (cbn; field).
  assert (E4 : a2 (m_coefficients RealExamples.unit_core) = 0%R)
    by (cbn; field).
  assert (Hl : (5 <= length [0; 1; 2; 3; 4]%R)%nat) by (simpl; lia).
  repeat (split; [assumption|]).
  exact (identity_block_every_target Examples.avx_double
           RealExamples.unit_core _ 5 E0 E1 E2 E3 E4 Hl).
Defined.

Section RealLinearity.
Open Scope R_scope.

(** Filters with the same coefficients whose states combine as
    [a s1 + b s2] map the inputs [a x + b y] to the outputs combined the
    same way. *)
Lemma mix_process_each (a b : R) (xs : list R) :
  forall (ys : list R) (f1 f2 f3 : DigitalBiquadFilter R),
    m_coefficients f1 = m_coefficients f3 ->
    m_coefficients f2 = m_coefficients f3 ->
    x1 (m_state f3) = a * x1 (m_state f1) + b * x1 (m_state f2) ->
    x2 (m_state f3) = a * x2 (m_state f1) + b * x2 (m_state f2) ->
    y1 (m_state f3) = a * y1 (m_state f1) + b * y1 (m_state f2) ->
    y2 (m_state f3) = a * y2 (m_state f1) + b * y2 (m_state f2) ->
    snd (Biquad.process_each f3 (mix a b xs ys)) =
    mix a b (snd (Biquad.process_each f1 xs)) (snd (Biquad.process_each f2 ys)).
Proof.
  induction xs as [|x xs IH]; intros ys f1 f2 f3 C1 C2 S1 S2 S3 S4;
    [reflexivity|].
  destruct ys as [|y ys].
  { cbn [Biquad.process_each mix combine map].
    destruct (Biquad.process f1 x) as [g1 o1].
    destruct (Biquad.process_each g1 xs) as [h1 os1]. reflexivity. }
  unfold mix. cbn [combine map fst snd Biquad.process_each].
  fold (mix a b xs ys).
  destruct (Biquad.process f1 x) as [g1 o1] eqn:E1.
  destruct (Biquad.process f2 y) as [g2 o2] eqn:E2.
  destruct (Biquad.process f3 (a * x + b * y)) as [g3 o3] eqn:E3.
  unfold Biquad.process in E1, E2, E3.
  injection E1 as G1 O1. injection E2 as G2 O2. injection E3 as G3 O3.
  assert (Ho : o3 = a * o1 + b * o2).
  { rewrite <- O1, <- O2, <- O3. simpl. rewrite C1, C2, S1, S2, S3, S4. ring. }
  assert (IH' : snd (Biquad.process_each g3 (mix a b xs ys)) =
                mix a b (snd (Biquad.process_each g1 xs))
                        (snd (Biquad.process_each g2 ys))).
  { apply IH; subst g1 g2 g3;
      cbn [m_coefficients m_state x1 x2 y1 y2]; try assumption; try reflexivity.
    rewrite O1, O2, O3. exact Ho. }
  destruct (Biquad.process_each g1 xs) as [h1 os1].
  destruct (Biquad.process_each g2 ys) as [h2 os2].
  destruct (Biquad.process_each g3 (mix a b xs ys)) as [h3 os3].
  cbn [snd combine map fst] in *. fold (mix a b os1 os2).
  rewrite Ho, IH'. reflexivity.
Qed.

End RealLinearity.

(** X23: over the real numbers the filter is linear: a fresh engine maps
    the combination [a x + b y] of two input sequences to the same
    combination of the outputs it gives for [x] and for [y]. *)
Theorem superposition :
  forall (c : Coefficients R) (f : DigitalBiquadFilter R) (a b : R)
         (xs ys : list R),
    Biquad.create c = Some f ->
    snd (Biquad.process_each f (mix a b xs ys)) =
    mix a b (snd (Biquad.process_each f xs)) (snd (Biquad.process_each f ys)).
Proof.
  intros c f a b xs ys Hc.
  unfold Biquad.create in Hc.
  destruct (a0 c == #0)%flt; [discriminate Hc|]. injection Hc as <-.
  apply mix_process_each; try reflexivity; cbn; ring.
Qed.

Lemma superposition_witness :
  Biquad.create RealExamples.unit_coefficients = Some RealExamples.unit_core /\
  snd (Biquad.process_each RealExamples.unit_core
         (mix 2 3 [1; 0; 0]%R [0; 1; 0]%R)) =
  mix 2 3 (snd (Biquad.process_each RealExamples.unit_core [1; 0; 0]%R))
          (snd (Biquad.process_each RealExamples.unit_core [0; 1; 0]%R)).
Proof.
  assert (Hc : Biquad.create RealExamples.unit_coefficients
               = Some RealExamples.unit_core).
  { apply create_accepts_positive_a0. cbn. lra. }
  split; [exact Hc|].
  exact (superposition RealExamples.unit_coefficients RealExamples.unit_core
           2%R 3%R [1; 0; 0]%R [0; 1; 0]%R Hc).
Defined.

(** X24: over the real numbers, for positive quality factors the
    bandwidth that [get_bandwidth] reports is positive and strictly
    smaller for the larger quality factor, and converting it back with the
    formula of [set_bandwidth] returns the stored quality factor. *)
Theorem bandwidth_decreases_with_q :
  forall f g : FilterObject R,
    (0 < m_qFactor f < m_qFactor g)%R ->
    (0 < Filter.get_bandwidth g < Filter.get_bandwidth f)%R /\
    Filter.bandwidth_to_q (Filter.get_bandwidth f) = m_qFactor f.
Proof.
  intros f g [Hf Hfg].
  pose proof Rlog10_2_pos as HL.
  unfold Filter.get_bandwidth, Filter.bandwidth_to_q; simpl.
  assert (Hg : (0 < 1 / (2 * m_qFactor g))%R)
    by (apply Rdiv_lt_0_compat; lra).
  assert (Hlt : (1 / (2 * m_qFactor g) < 1 / (2 * m_qFactor f))%R).
  { unfold Rdiv. rewrite !Rmult_1_l.
    apply Rinv_lt_contravar; [|lra].
    apply Rmult_lt_0_compat; lra. }
  pose proof (arcsinh_lt _ _ Hg) as Hpos. rewrite arcsinh_0 in Hpos.
  pose proof (arcsinh_lt _ _ Hlt) as Hmono.
  split; [split|].
  - apply Rdiv_lt_0_compat; lra.
  - unfold Rdiv. apply Rmult_lt_compat_r; [apply Rinv_0_lt_compat; lra|lra].
  - replace (2 * arcsinh (1 / (2 * m_qFactor f)) / Rlog10 2 * Rlog10 2 / 2)%R
      with (arcsinh (1 / (2 * m_qFactor f))) by (field; lra).
    rewrite sinh_arcsinh. field. lra.
Qed.

Lemma bandwidth_decreases_with_q_witness :
  (0 < m_qFactor Examples.notch
     < m_qFactor (Filter.with_qFactor Examples.notch 1%R))%R /\
  (Filter.get_bandwidth (Filter.with_qFactor Examples.notch 1%R)
     < Filter.get_bandwidth Examples.notch)%R.
Proof.
  assert (Hq : (0 < m_qFactor Examples.notch
                  < m_qFactor (Filter.with_qFactor Examples.notch 1%R))%R)
    by (cbn; lra).
  split; [exact Hq|].
  exact (proj2 (proj1 (bandwidth_decreases_with_q Examples.notch
                         (Filter.with_qFactor Examples.notch 1%R) Hq))).
Defined.

(** ** Not-a-number on [double] *)

Lemma ltb_nan_r (x : float) : PrimFloat.ltb x nan = false.
Proof.
  rewrite FloatAxioms.ltb_spec. change (Prim2SF nan) with S754_nan.
  unfold SFltb. destruct (Prim2SF x); reflexivity.
Qed.

(** X25: on [double] a NaN is not caught by the validation: for every
    positive sample rate [verify_parameters] accepts a NaN cutoff and a NaN
    quality factor, and [set_cutoff] and [set_q_factor] store a NaN. *)
Theorem nan_passes_validation :
  forall (calculate_coefficients : FilterObject float -> Coefficients float)
         (f : FilterObject float) (sampleRate : Z),
    (0 < sampleRate)%Z ->
    Filter.verify_parameters nan sampleRate nan = true /\
    Filter.get_cutoff (fst (Filter.set_cutoff calculate_coefficients f nan)) = nan /\
    Filter.get_q_factor (fst (Filter.set_q_factor calculate_coefficients f nan))
      = nan.
Proof.
  intros calc f sampleRate Hs.
  split; [|split].
  - unfold Filter.verify_parameters.
    replace (sampleRate <=? 0)%Z with false by (symmetry; apply Z.leb_gt; exact Hs).
    change (nan <=? #0)%flt with false. cbn [orb].
    change (@fltb float Floating_double) with PrimFloat.ltb.
    rewrite ltb_nan_r. reflexivity.
  - unfold Filter.set_cutoff, Filter.push_coefficients.
    change (nan <=? #0)%flt with false.
    cbn [Filter.with_cutoff m_filter]. destruct (m_filter f); reflexivity.
  - unfold Filter.set_q_factor, Filter.push_coefficients.
    change (nan <=? #0)%flt with false.
    cbn [Filter.with_qFactor m_filter]. destruct (m_filter f); reflexivity.
Qed.

Lemma nan_passes_validation_witness :
  (0 < 44100)%Z /\ Filter.verify_parameters nan 44100 nan = true.
Proof.
  split; [lia|].
  apply (nan_passes_validation (fun _ => Examples.iir_coefficients)
           Examples.bypassed 44100).
  lia.
Defined.

(** * The guards behind the bandwidth conversion and the factories *)

Section GuardFacts.
Context {T : Type} `{Floating T} `{Libm T}.
Open Scope flt_scope.

Lemma calculate_coefficients_core_free (k : Filter.FilterKind)
    (g : FilterObject T) (core : option (DigitalBiquadFilter T)) :
  Filter.calculate_coefficients k (Filter.with_filter g core)
  = Filter.calculate_coefficients k g.
Proof. destruct k; reflexivity. Qed.

(** The constructed object holds what the engine's [create] returns for
    the coefficients of its own parameters. *)
Lemma construct_core (k : Filter.FilterKind) (cutoff : T) (sampleRate : Z)
    (qFactor gain : T) (skirt : bool) :
  let obj := Filter.construct k cutoff sampleRate qFactor gain skirt in
  m_filter obj = Biquad.create (Filter.calculate_coefficients k obj).
Proof.
  cbv zeta. unfold Filter.construct.
  rewrite calculate_coefficients_core_free. reflexivity.
Qed.


End GuardFacts.


(** The values of the C library that the two refutations below rest on,
    as the binary64 instance computes them. *)
Example libm_double_values :
  (flog10 2 = 0x1.34413509f79ffp-2)%float /\
  (fsinh 0x1.7849993eaac6cp+9 = infinity)%float /\
  (M_PI = 0x1.921fb54442d18p+1)%float /\
  (fcos 0x1.921fb54442d18p+1 = -1)%float /\
  (fsin 0x1.921fb54442d18p+1 = 0x1.1a62633145c07p-53)%float /\
  (fpow 10 (-325) = 0)%float /\
  (fsqrt 0 = 0)%float.
Proof. repeat split; vm_compute; reflexivity. Qed.




(** C7 as the code has it: in any arithmetic a factory returns empty
    exactly when [sampleRate <= 0], [cutoff <= 0], [qFactor <= 0],
    [cutoff > sampleRate / 2], or the [a0] computed from the arguments
    compares equal to 0 (the engine's [create] refuses it); otherwise it
    returns the constructed object, which owns the engine built from the
    computed coefficients.  Over the real numbers the computed [a0] is never
    0 for arguments that pass the four tests, so there it returns empty
    exactly when one of the four tests fails. *)
Theorem create_rejects_guarded :
  (forall (T : Type) (F : Floating T) (L : Libm T) (k : Filter.FilterKind)
          (cutoff : T) (sampleRate : Z) (qFactor gain : T)
          (constantSkirtGain : bool),
      let obj :=
        Filter.construct k cutoff sampleRate qFactor gain constantSkirtGain in
      let c := Filter.calculate_coefficients k obj in
      if ((sampleRate <=? 0)%Z || (cutoff <=? #0) || (qFactor <=? #0)
          || (#sampleRate / #2 <? cutoff) || (a0 c == #0))%flt
      then Filter.create k cutoff sampleRate qFactor gain constantSkirtGain = None
      else Filter.create k cutoff sampleRate qFactor gain constantSkirtGain
             = Some obj /\
           m_filter obj = Some (Biquad.construct c)) /\
  (forall (k : Filter.FilterKind) (cutoff : R) (sampleRate : Z)
          (qFactor gain : R) (constantSkirtGain : bool),
      (Filter.create k cutoff sampleRate qFactor gain constantSkirtGain = None <->
       (sampleRate <= 0)%Z \/ (cutoff <= 0)%R \/ (qFactor <= 0)%R \/
       (cutoff > IZR sampleRate / 2)%R) /\
      (Filter.create k cutoff sampleRate qFactor gain constantSkirtGain = None \/
       exists core : DigitalBiquadFilter R,
         m_filter (Filter.construct k cutoff sampleRate qFactor gain
                     constantSkirtGain) = Some core /\
         Filter.create k cutoff sampleRate qFactor gain constantSkirtGain
           = Some (Filter.construct k cutoff sampleRate qFactor gain
                     constantSkirtGain))).
Proof.
  split; [|exact create_rejects_exactly].
  intros T F L k cutoff sampleRate qFactor gain skirt obj c.
  pose proof (construct_core k cutoff sampleRate qFactor gain skirt) as Hcore.
  cbv zeta in Hcore. fold obj in Hcore. fold c in Hcore.
  unfold Filter.create, Filter.verify_parameters. fold obj.
  destruct ((sampleRate <=? 0)%Z || (cutoff <=? #0) || (qFactor <=? #0)
            || (#sampleRate / #2 <? cutoff))%flt; cbn [negb orb];
    [reflexivity|].
  rewrite Hcore. unfold Biquad.create.
  destruct (a0 c == #0)%flt; [reflexivity|].
  split; reflexivity.
Qed.

(** With [M_PI] as the headers define it and the values the C library
    returns for [cos] and [sin] at it, for [pow(10, -325)] (an underflow)
    and for [sqrt(0)], the high shelf at the Nyquist frequency with a gain
    of -13000 dB gets [a0 = 1 - 1 + 0 = 0]. *)
Lemma high_shelf_a0_zero (L : Libm float) (q : float) (skirt : bool) :
  (M_PI = 0x1.921fb54442d18p+1)%float ->
  (fcos 0x1.921fb54442d18p+1 = -1)%float ->
  (fsin 0x1.921fb54442d18p+1 = 0x1.1a62633145c07p-53)%float ->
  (fpow 10 (-325) = 0)%float ->
  (fsqrt 0 = 0)%float ->
  (q = 0x1.6a0902de00d1bp-1)%float ->
  a0 (Filter.calculate_coefficients Filter.HighShelf
        (Filter.construct Filter.HighShelf 22050%float 44100 q (-13000)%float
           skirt)) = 0%float.
Proof.
  intros Hpi Hcos Hsin Hpow Hsqrt ->.
  unfold Filter.construct.
  rewrite calculate_coefficients_core_free.
  cbn [Filter.takes_gain Filter.takes_constantSkirtGain].
  unfold Filter.calculate_coefficients, Filter.HighShelf_coefficients.
  cbn [a0].
  unfold Filter.alpha_of, Filter.A_of, Filter.w0_of.
  cbn [Filter.with_gain Filter.with_qFactor Filter.with_sampleRate
       Filter.with_cutoff Filter.default_object m_cutoff m_sampleRate
       m_qFactor m_gain].
  rewrite Hpi.
  replace (#2 * (0x1.921fb54442d18p+1)%float * 22050%float / #44100)%flt
    with (0x1.921fb54442d18p+1)%float by (vm_compute; reflexivity).
  replace ((-13000)%float / #40)%flt with (-325)%float
    by (vm_compute; reflexivity).
  change (#10)%flt with 10%float.
  rewrite Hcos, Hsin, Hpow, Hsqrt.
  vm_compute. reflexivity.
Qed.

(** C7 refuted on [double]: the arguments pass the four tests of
    [verify_parameters], yet [HighShelfFilter::create(22050, 44100, 0.7071,
    -13000)] returns empty, the computed [a0] being [0.0]; the literal
    [0.7071] is the double [0x1.6a0902de00d1bp-1]. *)
Lemma create_high_shelf_empty_on_double :
  ((44100 <=? 0)%Z = false /\ (22050 <=? 0)%float = false /\
   (0x1.6a0902de00d1bp-1 <=? 0)%float = false /\
   (22050 <=? 44100 / 2)%float = true) /\
  Filter.verify_parameters 22050%float 44100 (0x1.6a0902de00d1bp-1)%float = true /\
  Filter.create Filter.HighShelf 22050%float 44100 (0x1.6a0902de00d1bp-1)%float
    (-13000)%float false = None.
Proof.
  split; [repeat split; vm_compute; reflexivity|].
  split; [vm_compute; reflexivity|].
  unfold Filter.create.
  replace (Filter.verify_parameters 22050%float 44100 (0x1.6a0902de00d1bp-1)%float)
    with true by (vm_compute; reflexivity).
  cbn [negb].
  pose proof (construct_core Filter.HighShelf 22050%float 44100
                (0x1.6a0902de00d1bp-1)%float (-13000)%float false) as Hcore.
  cbv zeta in Hcore. rewrite Hcore. unfold Biquad.create.
  rewrite (high_shelf_a0_zero Libm_double (0x1.6a0902de00d1bp-1)%float false);
    vm_compute; reflexivity.
Qed.
